(** * pulmoAi: the Gemini model cascade and the chatbot endpoint

    A shallow embedding of [backend/utils/geminiAI.js] (the helpers
    [isQuotaError], [isNotFoundError], the cascade [tryModels] and its two
    callers [analyzeCTScan] and [getChatbotResponse]) and of the
    [POST /api/chatbot] handler of [backend/routes/chatbot.js], followed by
    the properties of the cascade.  Also embedded: [GET /api/chatbot/info],
    the report utilities [str] and [extractFallback], the [POST /api/predict]
    handler with its upload filter, and from the browser side
    [sendChatMessage], [handleAPIError], [classifyError], [validateFile] and
    the send and error paths of the chat window.

    Conventions of the embedding:
    - a JavaScript string is the list of its UTF-16 code units;
    - a thrown value is any type with a [message] (class [ErrorLike]);
    - the outside world (network, file system, vendor SDK) is a state [W]
      threaded through every call that can touch it; an awaited call is the
      state transformer it amounts to once it has settled;
    - every value an operation throws is an object with a string [message],
      as the errors of the SDK and of the runtime are;
    - [console.log] and [console.warn] lines are left out. *)

From Stdlib Require Import String Ascii List NArith Bool Arith Lia.
Import ListNotations.

Set Implicit Arguments.

(** ** JavaScript strings *)

Module JsString.

Definition jsstring : Type := list N.

(** A source literal made of ASCII characters only. *)
Definition lit (s : string) : jsstring :=
  List.map N_of_ascii (list_ascii_of_string s).

Definition code_eqb : N -> N -> bool := N.eqb.

Fixpoint jsstring_eqb (s t : jsstring) : bool :=
  match s, t with
  | [], [] => true
  | a :: s', b :: t' => code_eqb a b && jsstring_eqb s' t'
  | _, _ => false
  end.

(** [startsWith s needle]: [needle] is an initial segment of [s]. *)
Fixpoint startsWith (s needle : jsstring) : bool :=
  match needle, s with
  | [], _ => true
  | _ :: _, [] => false
  | a :: needle', b :: s' => code_eqb a b && startsWith s' needle'
  end.

(** [String.prototype.includes]: [needle] occurs in [s] at some index. *)
Fixpoint includes (s needle : jsstring) : bool :=
  startsWith s needle ||
  match s with
  | [] => false
  | _ :: s' => includes s' needle
  end.

(** [Array.prototype.join] on an array of strings. *)
Fixpoint join (sep : jsstring) (parts : list jsstring) : jsstring :=
  match parts with
  | [] => []
  | [p] => p
  | p :: rest => p ++ sep ++ join sep rest
  end.

(** ECMAScript WhiteSpace and LineTerminator code points, all of them in
    the Basic Multilingual Plane, hence single code units. *)
Definition isWhiteSpace (c : N) : bool :=
  ((9 <=? c) && (c <=? 13) || (c =? 32) || (c =? 160) || (c =? 5760)
   || (8192 <=? c) && (c <=? 8202) || (c =? 8232) || (c =? 8233)
   || (c =? 8239) || (c =? 8287) || (c =? 12288) || (c =? 65279))%N.

Fixpoint trimStart (s : jsstring) : jsstring :=
  match s with
  | [] => []
  | c :: s' => if isWhiteSpace c then trimStart s' else s
  end.

Definition trimEnd (s : jsstring) : jsstring := rev (trimStart (rev s)).

Definition trim (s : jsstring) : jsstring := trimEnd (trimStart s).

Definition LF : jsstring := [10%N].
Definition EN_DASH : jsstring := [8211%N].
Definition BULLET : jsstring := [8226%N].

End JsString.
Import JsString.

(** ** Thrown values *)

(** What the helpers read of a caught value: its [message] property. *)
Class ErrorLike (E : Type) : Type := message : E -> jsstring.

(** An [Error] object built by [new Error(msg)]. *)
Record JsError : Type := Error { error_message : jsstring }.

#[export] Instance JsError_ErrorLike : ErrorLike JsError := error_message.

(** How a call completes: it returns, it rethrows a value it caught, or it
    throws an [Error] it has just built. *)
Inductive Completion (A E : Type) : Type :=
| Returned (a : A)
| Rethrown (err : E)
| ThrownNew (msg : jsstring).

Arguments Returned {A E} a.
Arguments Rethrown {A E} err.
Arguments ThrownNew {A E} msg.

(** ** Helpers of geminiAI.js *)

Section Helpers.
Context {E : Type} `{ErrorLike E}.

Definition isQuotaError (err : E) : bool :=
  includes (message err) (lit "429") ||
  includes (message err) (lit "Too Many") ||
  includes (message err) (lit "quota") ||
  includes (message err) (lit "RESOURCE_EXHAUSTED").

Definition isNotFoundError (err : E) : bool :=
  includes (message err) (lit "404") || includes (message err) (lit "not found").

(** The text pushed onto [errors] for a skipped model (line 263). *)
Definition skipDetail (modelName : jsstring) (err : E) : jsstring :=
  modelName ++ lit ": " ++
  (if includes (message err) (lit "429") then lit "quota exceeded" else lit "not found").
End Helpers.

(** The three classes of failure the cascade tells apart.  The catch block
    tests [isQuotaError(err) || isNotFoundError(err)], quota first; anything
    else is rethrown. *)
Inductive FailureClassification : Type := TransientQuota | NotFound | Fatal.

Definition classify {E : Type} `{ErrorLike E} (err : E) : FailureClassification :=
  if isQuotaError err then TransientQuota
  else if isNotFoundError err then NotFound
  else Fatal.

(** The guard of the catch block: the model is skipped. *)
Definition skippable {E : Type} `{ErrorLike E} (err : E) : bool :=
  isQuotaError err || isNotFoundError err.

(** ** The cascade *)

(** The body of the [try] block for one model name: [getGenerativeModel]
    followed by the awaited caller's closure.  It returns a result or throws,
    and may change the world. *)
Definition Operation (W R E : Type) : Type := jsstring -> W -> (R + E) * W.

(** The object [{ result, modelName }] that [tryModels] returns. *)
Record Winner (R : Type) : Type := { result : R; modelName : jsstring }.

Definition exhaustedMessage (errors : list jsstring) : jsstring :=
  lit "All Gemini models quota-exceeded. Please wait a minute and try again." ++ LF ++
  lit "Details: " ++ join (lit " | ") errors ++ LF ++
  lit "Free tier allows 15" ++ EN_DASH ++
  lit "30 req/min. If you sent many requests in a row, wait 60 seconds.".

Section TryModels.
Context {W R E : Type} `{ErrorLike E}.
Variable fn : Operation W R E.

(** The [for ... of] loop with [errors] as accumulated so far. *)
Fixpoint tryModels_loop (errors : list jsstring) (models : list jsstring) (w : W)
  : Completion (Winner R) E * W :=
  match models with
  | [] => (ThrownNew (exhaustedMessage errors), w)
  | modelName :: rest =>
      match fn modelName w with
      | (inl result, w') => (Returned {| result := result; modelName := modelName |}, w')
      | (inr err, w') =>
          if isQuotaError err || isNotFoundError err
          then tryModels_loop (errors ++ [skipDetail modelName err]) rest w'
          else (Rethrown err, w')
      end
  end.

Definition tryModels (models : list jsstring) (w : W) : Completion (Winner R) E * W :=
  tryModels_loop [] models w.

(** An instrumented copy of [fn]: the world carries the list of model
    names [fn] has been invoked on, oldest first. *)
Definition traced : Operation (W * list jsstring) R E :=
  fun modelName wl =>
    let '(outcome, w') := fn modelName (fst wl) in
    (outcome, (w', snd wl ++ [modelName])).

(** [attempts P ms w w']: invoking [fn] on the names [ms] one after the
    other from the world [w] throws every time a value that satisfies [P],
    and leaves the world [w']. *)
Fixpoint attempts (P : E -> Prop) (ms : list jsstring) (w w_end : W) : Prop :=
  match ms with
  | [] => w_end = w
  | m :: ms' =>
      exists err w', fn m w = (inr err, w') /\ P err /\ attempts P ms' w' w_end
  end.
End TryModels.

(** The model names the operation is invoked on during a cascade, in order
    of invocation. *)
Definition invocations {W R E : Type} `{ErrorLike E}
    (fn : Operation W R E) (models : list jsstring) (w : W) : list jsstring :=
  snd (snd (tryModels (traced fn) models (w, []))).

(** ** Configuration *)

Definition VISION_MODELS : list jsstring :=
  [ lit "gemini-2.0-flash"; lit "gemini-2.0-flash-lite";
    lit "gemini-2.5-flash"; lit "gemini-flash-lite-latest" ].

Definition CHAT_MODELS : list jsstring :=
  [ lit "gemini-2.0-flash"; lit "gemini-2.0-flash-lite";
    lit "gemini-2.5-flash"; lit "gemini-flash-lite-latest" ].

Definition KEY_PLACEHOLDER : jsstring := lit "YOUR_GEMINI_API_KEY_HERE".

(** [!process.env.GEMINI_API_KEY || process.env.GEMINI_API_KEY === placeholder]:
    the variable is unset ([None]), empty, or still the placeholder. *)
Definition keyMissing (GEMINI_API_KEY : option jsstring) : bool :=
  match GEMINI_API_KEY with
  | None => true
  | Some k => jsstring_eqb k [] || jsstring_eqb k KEY_PLACEHOLDER
  end.

(** The messages of the two configuration errors. *)
Definition VISION_KEY_ERROR : jsstring :=
  lit "GEMINI_API_KEY is not configured. Please add your API key to backend/.env. Get a FREE key at https://aistudio.google.com/app/apikey".

Definition CHAT_KEY_ERROR : jsstring := lit "GEMINI_API_KEY not configured".

(** ** The two callers of the cascade *)

Section Callers.
Context {W Image Resp Report Hist E : Type} `{ErrorLike E}.
Variable GEMINI_API_KEY : option jsstring.

(** [fs.readFileSync(imagePath)]. *)
Variable readFileSync : jsstring -> W -> (Image + E) * W.
(** The closure given to [tryModels] by [analyzeCTScan]:
    [model.generateContent([VISION_PROMPT, imagePart])], the image part
    being made from the file's bytes and its extension. *)
Variable generateContent : jsstring -> Image -> Operation W Resp E.
(** Lines 327-362: reading the text of the response, parsing it (with the
    text fallback) and filling the report's defaults; it may throw. *)
Variable buildReport : Resp -> jsstring -> W -> Report + E.

Definition analyzeCTScan (imagePath : jsstring) (w : W) : Completion Report E * W :=
  if keyMissing GEMINI_API_KEY
  then (ThrownNew VISION_KEY_ERROR, w)
  else
    match readFileSync imagePath w with
    | (inr err, w1) => (Rethrown err, w1)
    | (inl imageBuffer, w1) =>
        match tryModels (generateContent imagePath imageBuffer) VISION_MODELS w1 with
        | (Returned won, w2) =>
            match buildReport (result won) (modelName won) w2 with
            | inl report => (Returned report, w2)
            | inr err => (Rethrown err, w2)
            end
        | (Rethrown err, w2) => (Rethrown err, w2)
        | (ThrownNew msg, w2) => (ThrownNew msg, w2)
        end
    end.

(** The closure given to [tryModels] by [getChatbotResponse]: a model with
    the system instruction, a chat started on the filtered history, and
    [chat.sendMessage(userMessage)]. *)
Variable sendMessage : jsstring -> Hist -> Operation W Resp E.
(** [result.response.text()]. *)
Variable responseText : Resp -> jsstring + E.

Definition getChatbotResponse (userMessage : jsstring) (conversationHistory : Hist) (w : W)
  : Completion jsstring E * W :=
  if keyMissing GEMINI_API_KEY
  then (ThrownNew CHAT_KEY_ERROR, w)
  else
    match tryModels (sendMessage userMessage conversationHistory) CHAT_MODELS w with
    | (Returned won, w1) =>
        match responseText (result won) with
        | inl text => (Returned text, w1)
        | inr err => (Rethrown err, w1)
        end
    | (Rethrown err, w1) => (Rethrown err, w1)
    | (ThrownNew msg, w1) => (ThrownNew msg, w1)
    end.
End Callers.

(** ** The chatbot route *)

(** One entry of the rule-based knowledge base. *)
Record Entry : Type := { keywords : list jsstring; response : jsstring }.

Definition knowledgeBase : list Entry :=
  [ {| keywords := [lit "what is"; lit "lung nodule"; lit "pulmonary nodule"];
       response :=
         lit "A lung nodule (or pulmonary nodule) is a small, round or oval-shaped growth in the lung. " ++
         lit "Most lung nodules are benign (non-cancerous), but some can be malignant. They are typically " ++
         lit "detected on chest X-rays or CT scans and are usually smaller than 3 cm in diameter." |};
    {| keywords := [lit "benign"; lit "non-cancerous"; lit "not cancer"];
       response :=
         lit "Benign means non-cancerous. A benign nodule will not spread to other parts of the body. " ++
         lit "However, it still requires monitoring through regular follow-up scans. Common causes include " ++
         lit "old infections, inflammation, or harmless growths. Your doctor will recommend a monitoring schedule." |};
    {| keywords := [lit "malignant"; lit "cancerous"; lit "cancer"; lit "lung cancer"];
       response :=
         lit "Malignant means cancerous. A malignant nodule has the potential to spread to other parts of the body. " ++
         lit "If detected, further diagnostic tests such as biopsy, PET scan, or additional imaging will be needed. " ++
         lit "Early detection significantly improves treatment outcomes. Please consult an oncologist immediately." |};
    {| keywords := [lit "causes"; lit "why"; lit "risk factors"; lit "smoking"];
       response :=
         lit "Lung nodules can be caused by various factors including: smoking (primary risk factor), " ++
         lit "exposure to asbestos or radon, previous lung infections (tuberculosis, fungal infections), " ++
         lit "inflammation, scar tissue, or benign tumors." |};
    {| keywords := [lit "symptoms"; lit "signs"; lit "feel"; lit "pain"];
       response :=
         lit "Most small lung nodules cause NO symptoms and are found incidentally during imaging for other reasons. " ++
         lit "Larger nodules or cancerous ones may cause: persistent cough, coughing up blood, chest pain, " ++
         lit "shortness of breath, unexplained weight loss, or fatigue." |};
    {| keywords := [lit "treatment"; lit "cure"; lit "therapy"; lit "surgery"];
       response :=
         lit "Treatment depends on the nodule characteristics:" ++ LF ++ LF ++
         BULLET ++ lit " Benign small nodules: Regular monitoring with CT scans" ++ LF ++
         BULLET ++ lit " Suspicious nodules: May require biopsy or PET scan" ++ LF ++
         BULLET ++ lit " Malignant nodules: Surgery, radiation, chemotherapy, or targeted therapy" |};
    {| keywords := [lit "ct scan"; lit "x-ray"; lit "imaging"];
       response :=
         lit "A CT scan uses X-rays to create detailed cross-sectional images of your lungs. " ++
         lit "It can detect nodules as small as 1-2mm. The scan is painless and typically takes 5-10 minutes." |};
    {| keywords := [lit "hello"; lit "hi"; lit "hey"];
       response :=
         lit "Hello! I'm your AI Medical Assistant powered by Google Gemini. " ++
         lit "I can answer questions about pulmonary nodules, CT scans, treatment options, and more. " ++
         lit "How can I help you today?" |} ].

Definition defaultFallbackResponse : jsstring :=
  lit "I'm sorry, I couldn't process that with the AI engine right now. " ++
  lit "Please ask about lung nodules, symptoms, treatments, CT scans, or prevention strategies.".

(** What the handler reads of [req.body.message]. *)
Inductive MessageField : Type :=
| MsgFalsy                   (* undefined, null, false, 0 *)
| MsgString (s : jsstring)   (* a string, the empty one included *)
| MsgOther.                  (* true, a non-zero number, an array, an object:
                                truthy and with no [trim] to call *)

Section ChatbotRoute.
Context {W Resp Hist E : Type} `{ErrorLike E}.
Variable GEMINI_API_KEY : option jsstring.
Variable sendMessage : jsstring -> Hist -> Operation W Resp E.
Variable responseText : Resp -> jsstring + E.
(** [String.prototype.toLowerCase], the Unicode default case conversion. *)
Variable toLowerCase : jsstring -> jsstring.
(** The empty array that [history] defaults to. *)
Variable emptyHistory : Hist.
(** [new Date().toISOString()]. *)
Variable isoNow : W -> jsstring.

(** [req.body] once destructured: [history] is [None] when undefined. *)
Record Body : Type := { body_message : MessageField; body_history : option Hist }.

Record ResponseBody : Type :=
  { success : bool;
    error : option jsstring;
    reply : jsstring;
    engine : option jsstring;
    timestamp : option jsstring }.

Record Response : Type := { status : nat; json : ResponseBody }.

Definition getRuleBasedResponse (message : jsstring) : jsstring :=
  let lower := trim (toLowerCase message) in
  match find (fun entry => existsb (fun k => includes lower (toLowerCase k)) (keywords entry))
             knowledgeBase with
  | Some entry => response entry
  | None => defaultFallbackResponse
  end.

Definition badRequest (err reply : jsstring) : Response :=
  {| status := 400;
     json := {| success := false; error := Some err; reply := reply;
                engine := None; timestamp := None |} |}.

(** The outer [catch]. *)
Definition serverError : Response :=
  {| status := 500;
     json := {| success := false; error := Some (lit "Chatbot error");
                reply := lit "I'm having trouble processing your request. Please try again.";
                engine := None; timestamp := None |} |}.

Definition answered (reply engine : jsstring) (w : W) : Response :=
  {| status := 200;
     json := {| success := true; error := None; reply := reply;
                engine := Some engine; timestamp := Some (isoNow w) |} |}.

(** [router.post('/chatbot', ...)]; [None] is a request whose [req.body]
    is undefined, on which the destructuring throws. *)
Definition postChatbot (body : option Body) (w : W) : Response * W :=
  match body with
  | None => (serverError, w)
  | Some b =>
      match body_message b with
      | MsgFalsy => (badRequest (lit "No message provided") (lit "Please send a message."), w)
      | MsgOther => (serverError, w)
      | MsgString message =>
          if jsstring_eqb message [] || jsstring_eqb (trim message) []
          then (badRequest (lit "No message provided") (lit "Please send a message."), w)
          else if 1000 <? List.length message
          then (badRequest (lit "Message too long")
                           (lit "Please keep your question under 1000 characters."), w)
          else
            let history := match body_history b with Some h => h | None => emptyHistory end in
            if negb (keyMissing GEMINI_API_KEY)
            then
              match getChatbotResponse GEMINI_API_KEY sendMessage responseText message history w with
              | (Returned reply, w') => (answered reply (lit "gemini") w', w')
              | (_, w') => (answered (getRuleBasedResponse message) (lit "rule-based") w', w')
              end
            else (answered (getRuleBasedResponse message) (lit "rule-based") w, w)
      end
  end.
End ChatbotRoute.

(** ** The classification rules as the specification words them *)

Module Spec.

Definition asciiLower (c : N) : N :=
  if ((65 <=? c) && (c <=? 90))%N then (c + 32)%N else c.

(** "matched case-insensitively". *)
Definition includesIgnoringCase (s needle : jsstring) : bool :=
  includes (List.map asciiLower s) (List.map asciiLower needle).

(** Section 4.1, [transient-quota]: a 429 indicator, the word "quota", the
    phrase "too many" (case-insensitive), or a "resource exhausted" marker. *)
Definition transientQuota (msg : jsstring) : bool :=
  includes msg (lit "429") || includes msg (lit "quota") ||
  includesIgnoringCase msg (lit "too many") ||
  includes msg (lit "RESOURCE_EXHAUSTED").

(** Section 4.1, [not-found]: a 404 indicator or the phrase "not found"
    (case-insensitive). *)
Definition notFound (msg : jsstring) : bool :=
  includes msg (lit "404") || includesIgnoringCase msg (lit "not found").

(** Section 8: "429" gives [transient-quota]; any other message with "404"
    or "not found" gives [not-found]; all other messages are [fatal]. *)
Definition classifyTestable (msg : jsstring) : FailureClassification :=
  if includes msg (lit "429") then TransientQuota
  else if includes msg (lit "404") || includes msg (lit "not found") then NotFound
  else Fatal.

End Spec.

(** [occursIn needle s]: the code units of [needle] stand in [s], in a row
    and as they are (no case folding). *)
Definition occursIn (needle s : jsstring) : Prop :=
  exists pre suf : jsstring, s = pre ++ needle ++ suf.

(** The markers [isQuotaError] and [isNotFoundError] look for. *)
Definition quotaMarker (msg : jsstring) : Prop :=
  occursIn (lit "429") msg \/ occursIn (lit "Too Many") msg \/
  occursIn (lit "quota") msg \/ occursIn (lit "RESOURCE_EXHAUSTED") msg.

Definition notFoundMarker (msg : jsstring) : Prop :=
  occursIn (lit "404") msg \/ occursIn (lit "not found") msg.

(** A call that leaves the log of invocations alone, over a world that carries one. *)
Definition keepLog {W A : Type} (f : W -> A * W) (wl : W * list jsstring)
  : A * (W * list jsstring) :=
  let '(a, w') := f (fst wl) in (a, (w', snd wl)).

(** ** Scenarios *)

Module Scenario.

(** An operation that answers by model name from a fixed table, and throws
    "unknown model" for a name the table lacks; the world is not used. *)
Fixpoint scripted (table : list (jsstring * (jsstring + JsError)))
    (modelName : jsstring) (w : unit) : (jsstring + JsError) * unit :=
  match table with
  | [] => (inr (Error (lit "unknown model")), w)
  | (name, outcome) :: table' =>
      if jsstring_eqb name modelName then (outcome, w) else scripted table' modelName w
  end.

Definition fails (msg : string) : jsstring + JsError := inr (Error (lit msg)).
Definition succeeds (payload : string) : jsstring + JsError := inl (lit payload).

Definition m1 : jsstring := lit "m1".
Definition m2 : jsstring := lit "m2".
Definition m3 : jsstring := lit "m3".

(** Section 8, first concrete scenario. *)
Definition thirdWins : Operation unit jsstring JsError :=
  scripted [ (m1, fails "429 Too Many Requests");
             (m2, fails "model not found (404)");
             (m3, succeeds "OK") ].

Definition quotaThenOk : Operation unit jsstring JsError :=
  scripted [ (m1, fails "429 Too Many Requests"); (m2, fails "quota"); (m3, succeeds "OK") ].

(** Section 8, second concrete scenario. *)
Definition bothExhausted : Operation unit jsstring JsError :=
  scripted [ (m1, fails "RESOURCE_EXHAUSTED"); (m2, fails "RESOURCE_EXHAUSTED") ].

(** Section 8, third concrete scenario. *)
Definition badSchema : Operation unit jsstring JsError :=
  scripted [ (m1, fails "invalid request schema"); (m2, succeeds "never asked") ].

(** A first model whose error carries markers of both kinds. *)
Definition overlapping : Operation unit jsstring JsError :=
  scripted [ (m1, fails "quota lookup failed (404)"); (m2, succeeds "OK") ].

(** A chat closure whose every model is out of quota. *)
Definition chatOutOfQuota (userMessage : jsstring) (history : list jsstring)
  : Operation unit jsstring JsError :=
  fun _ w => (inr (Error (lit "429 Too Many Requests")), w).

Definition textOf (r : jsstring) : jsstring + JsError := inl r.

Definition asciiToLowerCase (s : jsstring) : jsstring := List.map Spec.asciiLower s.

Definition epoch (w : unit) : jsstring := lit "1970-01-01T00:00:00.000Z".

Definition noFile (path : jsstring) (w : unit) : (jsstring + JsError) * unit :=
  (inr (Error (lit "ENOENT: no such file or directory")), w).

Definition visionOutOfQuota (path : jsstring) (image : jsstring)
  : Operation unit jsstring JsError :=
  fun _ w => (inr (Error (lit "429 Too Many Requests")), w).

Definition rawReport (r : jsstring) (modelName : jsstring) (w : unit) : jsstring + JsError :=
  inl r.

End Scenario.

(** ** GET /api/chatbot/info *)

Module Info.

Record FreeTierLimits : Type :=
  { requestsPerMinute : N; requestsPerDay : N; tokensPerMonth : jsstring }.

Record ChatbotInfo : Type :=
  { name : jsstring;
    version : jsstring;
    engine : jsstring;
    apiConfigured : bool;
    capabilities : list jsstring;
    freeTierLimits : FreeTierLimits }.

(** [!!process.env.GEMINI_API_KEY && process.env.GEMINI_API_KEY !== placeholder]. *)
Definition hasApiKey (GEMINI_API_KEY : option jsstring) : bool :=
  match GEMINI_API_KEY with
  | None => false
  | Some k => negb (jsstring_eqb k []) && negb (jsstring_eqb k KEY_PLACEHOLDER)
  end.

(** The [info] object of the response. *)
Definition getChatbotInfo (GEMINI_API_KEY : option jsstring) : ChatbotInfo :=
  {| name := lit "Medical AI Assistant";
     version := lit "2.0.0";
     engine := if hasApiKey GEMINI_API_KEY
               then lit "Google Gemini 1.5 Flash" else lit "Rule-based (fallback)";
     apiConfigured := hasApiKey GEMINI_API_KEY;
     capabilities :=
       [ lit "Answer questions about lung nodules";
         lit "Explain CT scan results";
         lit "Provide general pulmonary health information";
         lit "Explain AI detection process";
         lit "Conversational context awareness" ];
     freeTierLimits :=
       {| requestsPerMinute := 15; requestsPerDay := 1500;
          tokensPerMonth := lit "1 million" |} |}.

End Info.

(** ** Utilities of geminiAI.js *)

(** A turn of the conversation as the route receives it, and as the chat is
    started with it: [{ role, parts: [{ text }] }]. *)
Record Turn : Type := { role : jsstring; text : jsstring }.
Record Content : Type := { content_role : jsstring; parts : list jsstring }.

(** The [history] that [getChatbotResponse] starts the chat with. *)
Definition startChatHistory (conversationHistory : list Turn) : list Content :=
  List.map (fun m => {| content_role := role m; parts := [text m] |})
    (List.filter (fun m => jsstring_eqb (role m) (lit "user") ||
                           jsstring_eqb (role m) (lit "model"))
                 conversationHistory).

Module Vision.

Record TechnicalDetails : Type :=
  { noduleSize : jsstring; location : jsstring; shape : jsstring; density : jsstring }.

(** The object [extractFallback] returns. *)
Record Parsed : Type :=
  { result : jsstring;
    confidence : N;
    riskLevel : jsstring;
    description : jsstring;
    technicalDetails : TechnicalDetails;
    recommendations : list jsstring;
    imageQuality : jsstring;
    findings : jsstring }.

(** [str(val, fallback)]; [None] is a value that is not a string. *)
Definition str (val : option jsstring) (fallback : jsstring) : jsstring :=
  match val with
  | Some s => if jsstring_eqb (trim s) [] then fallback else trim s
  | None => fallback
  end.

Definition defaultRecommendations : list jsstring :=
  [ lit "Consult with a pulmonologist for proper evaluation";
    lit "Consider additional imaging if clinically indicated";
    lit "Regular follow-up as recommended by your physician";
    lit "Maintain healthy lifestyle and avoid smoking" ].

Section Fallback.
Variable toLowerCase : jsstring -> jsstring.

Definition extractFallback (text : jsstring) : Parsed :=
  let lower := toLowerCase text in
  let '(result, riskLevel, confidence) :=
    if includes lower (lit "benign")
    then (lit "Nodule Detected - Benign", lit "low", 78%N)
    else if includes lower (lit "malignant") || includes lower (lit "cancer")
    then (lit "Nodule Detected - Malignant", lit "high", 72%N)
    else if includes lower (lit "no nodule") || includes lower (lit "normal")
    then (lit "No Nodule Detected", lit "none", 88%N)
    else (lit "Indeterminate - Further Evaluation Required", lit "moderate", 74%N) in
  {| result := result;
     confidence := confidence;
     riskLevel := riskLevel;
     description := lit "Analysis completed.";
     technicalDetails :=
       {| noduleSize := lit "N/A"; location := lit "N/A";
          shape := lit "N/A"; density := lit "N/A" |};
     recommendations := defaultRecommendations;
     imageQuality := lit "Fair";
     findings := firstn 500 text |}.
End Fallback.

End Vision.

(** ** The prediction route *)

Module Predict.

(** What the handler reads of [req.file]. *)
Record UploadedFile : Type := { path : jsstring; filename : jsstring; size : N }.

(** The response: the JSON of a success (status 200), or a status with
    [{ success: false, error, message }]. *)
Inductive Reply (Report : Type) : Type :=
| Analysed (prediction : Report) (imagePath fileName uploadedAt aiEngine : jsstring)
| Failed (status : nat) (error detail : jsstring).

Arguments Analysed {Report} prediction imagePath fileName uploadedAt aiEngine.
Arguments Failed {Report} status error detail.

Definition statusOf {Report : Type} (r : Reply Report) : nat :=
  match r with
  | Analysed _ _ _ _ _ => 200
  | Failed status _ _ => status
  end.

Definition successOf {Report : Type} (r : Reply Report) : bool :=
  match r with
  | Analysed _ _ _ _ _ => true
  | Failed _ _ _ => false
  end.

Definition allowed : list jsstring :=
  [ lit "image/jpeg"; lit "image/jpg"; lit "image/png" ].

(** [fileFilter]: [None] when the file is accepted, the message of the
    error otherwise. *)
Definition fileFilter (mimetype : jsstring) : option jsstring :=
  if existsb (jsstring_eqb mimetype) allowed then None
  else Some (lit "Invalid file type. Only PNG, JPG, and JPEG are allowed.").

(** [limits.fileSize]. *)
Definition FILE_SIZE_LIMIT : N := 10 * 1024 * 1024.

(** The status and the user message chosen in the [catch] block. *)
Definition failureFor (msg : jsstring) : nat * jsstring :=
  if includes msg (lit "GEMINI_API_KEY") || includes msg (lit "not configured")
  then (503, lit "AI service not configured. Please add your GEMINI_API_KEY to backend/.env. Get a FREE key at https://aistudio.google.com/app/apikey")
  else if includes msg (lit "All Gemini models quota-exceeded") || includes msg (lit "all models")
  then (429, lit "Rate limit reached on all AI models. Please wait 60 seconds and try again. (Free tier: 15 requests/minute)")
  else if includes msg (lit "429") || includes msg (lit "quota") || includes msg (lit "Too Many")
  then (429, lit "AI rate limit reached. Please wait 60 seconds and try again. (Free tier: 15 requests/minute)")
  else if includes msg (lit "API_KEY_INVALID") || includes msg (lit "invalid")
  then (401, lit "Invalid Gemini API key. Please check GEMINI_API_KEY in backend/.env. Get a valid key at https://aistudio.google.com/app/apikey")
  else (500, lit "Analysis failed. Please try again.").

Section Route.
Context {W Image Resp Report E : Type} `{ErrorLike E}.
Variable GEMINI_API_KEY : option jsstring.
Variable readFileSync : jsstring -> W -> (Image + E) * W.
Variable generateContent : jsstring -> Image -> Operation W Resp E.
Variable buildReport : Resp -> jsstring -> W -> Report + E.
(** [fs.existsSync]. *)
Variable existsSync : jsstring -> W -> bool.
(** [try { fs.unlinkSync(path) } catch (_) { }]: the world after the
    attempt, whether it threw or not. *)
Variable unlinkSync : jsstring -> W -> W.
Variable isoNow : W -> jsstring.

(** "Clean up uploaded file on error". *)
Definition cleanUp (savedFilePath : jsstring) (w : W) : W :=
  if negb (jsstring_eqb savedFilePath []) && existsSync savedFilePath w
  then unlinkSync savedFilePath w
  else w.

Definition failed (msg : jsstring) : Reply Report :=
  Failed (fst (failureFor msg)) (lit "AI Analysis Failed") (snd (failureFor msg)).

(** [router.post('/predict', upload.single('image'), ...)], once the upload
    middleware has let the request through; [None] is a request with no
    file. *)
Definition postPredict (file : option UploadedFile) (w : W) : Reply Report * W :=
  match file with
  | None =>
      (Failed 400 (lit "No image file uploaded")
              (lit "Please upload a CT scan image (PNG, JPG, or JPEG)"), w)
  | Some f =>
      match analyzeCTScan GEMINI_API_KEY readFileSync generateContent buildReport
                          (path f) w with
      | (Returned prediction, w1) =>
          (Analysed prediction (lit "/uploads/" ++ filename f) (filename f)
                    (isoNow w1) (lit "Google Gemini Vision"), w1)
      | (Rethrown err, w1) => (failed (message err), cleanUp (path f) w1)
      | (ThrownNew msg, w1) => (failed msg, cleanUp (path f) w1)
      end
  end.
End Route.

End Predict.

(** ** The browser side: services/api.js, App.js, Chatbot.js, UploadSection.js *)

Module Frontend.

(** A message of the chat window. *)
Record ChatMessage : Type := { type : jsstring; msgText : jsstring }.

(** The history [sendChatMessage] posts: the user and bot messages, the
    last ten of them, with the roles renamed. *)
Definition geminiHistory (history : list ChatMessage) : list Turn :=
  List.map (fun m => {| role := if jsstring_eqb (type m) (lit "user")
                                then lit "user" else lit "model";
                        text := msgText m |})
    (let kept := List.filter (fun m => jsstring_eqb (type m) (lit "user") ||
                                       jsstring_eqb (type m) (lit "bot")) history in
     skipn (List.length kept - 10) kept).

(** [handleSendMessage] up to the request: nothing is sent for a blank
    input, the trimmed input and the converted history otherwise. *)
Definition chatRequest (inputMessage : jsstring) (messages : list ChatMessage)
  : option (@Body (list Turn)) :=
  let trimmedMessage := trim inputMessage in
  if jsstring_eqb trimmedMessage [] then None
  else Some {| body_message := MsgString trimmedMessage;
               body_history := Some (geminiHistory messages) |}.

Definition ALLOWED_TYPES : list jsstring :=
  [ lit "image/jpeg"; lit "image/jpg"; lit "image/png" ].

Definition MAX_SIZE_MB : N := 10.

(** [validateFile]: [None] for [null], the alert text otherwise. *)
Definition validateFile (fileType : jsstring) (fileSize : N) : option jsstring :=
  if negb (existsb (jsstring_eqb fileType) ALLOWED_TYPES)
  then Some (lit "Invalid file type. Please upload a PNG or JPG image.")
  else if (MAX_SIZE_MB * 1024 * 1024 <? fileSize)%N
  then Some (lit "File too large. Maximum size is 10MB.")
  else None.

(** The three shapes of an axios error [handleAPIError] tells apart; a
    field is [None] when it is absent from the data. *)
Inductive AxiosError : Type :=
| ResponseError (dataMessage dataError : option jsstring)
| RequestError
| SetupError (errorMessage : option jsstring).

(** [a || b] on a string that may be absent: absent and empty are falsy. *)
Definition orElse (a : option jsstring) (b : jsstring) : jsstring :=
  match a with
  | Some (c :: s) => c :: s
  | _ => b
  end.

(** The message of the [Error] that [handleAPIError] returns. *)
Definition handleAPIError (e : AxiosError) : jsstring :=
  match e with
  | ResponseError dataMessage dataError =>
      orElse dataMessage (orElse dataError (lit "Server error"))
  | RequestError => lit "Cannot connect to server. Please check if backend is running."
  | SetupError errorMessage => orElse errorMessage (lit "An unexpected error occurred")
  end.

(** The two texts the chat window shows when [sendChatMessage] throws. *)
Definition API_KEY_NOTICE : jsstring :=
  [9888%N; 65039%N] ++
  lit " AI service not configured. Please add your GEMINI_API_KEY to backend/.env (get a free key at aistudio.google.com). The system is using basic rule-based responses.".

Definition SORRY : jsstring :=
  lit "I'm sorry, I'm having trouble processing your request. Please try again.".

(** The [catch] of [handleSendMessage], on the error [sendChatMessage]
    makes of an axios error. *)
Definition chatErrorText (e : AxiosError) : jsstring :=
  let errorMessage := handleAPIError e in
  if includes errorMessage (lit "API") || includes errorMessage (lit "key")
  then API_KEY_NOTICE else SORRY.

(** The axios error a response of the chat route comes back as: none for
    status 200; otherwise the response's data, which has an [error] field
    and no [message] field. *)
Definition chatFailure (r : Response) : option AxiosError :=
  if status r =? 200 then None
  else Some (ResponseError None (error (json r))).

Inductive ErrorKind : Type := generic | rateLimit | noApiKey | badApiKey.

Section ErrorCard.
Variable toLowerCase : jsstring -> jsstring.

Definition classifyError (msg : option jsstring) : ErrorKind :=
  match msg with
  | None | Some [] => generic
  | Some msg =>
      let m := toLowerCase msg in
      if includes m (lit "rate limit") || includes m (lit "quota") ||
         includes m (lit "wait 60") || includes m (lit "429")
      then rateLimit
      else if includes m (lit "not configured") || includes m (lit "api key") ||
              includes m (lit "gemini_api_key")
      then noApiKey
      else if includes m (lit "invalid") && includes m (lit "key")
      then badApiKey
      else generic
  end.

(** The card [App] shows after a failed upload: the route's failure comes
    back as an axios error with the response's data, [handleUpload] keeps
    the message of the error made from it, [ErrorCard] classifies it. *)
Definition errorCard {Report : Type} (r : Predict.Reply Report) : option ErrorKind :=
  match r with
  | Predict.Analysed _ _ _ _ _ => None
  | Predict.Failed _ error detail =>
      Some (classifyError (Some (handleAPIError (ResponseError (Some detail) (Some error)))))
  end.
End ErrorCard.

End Frontend.

(** More scenarios. *)

Module Fixture.

Definition scanFile : Predict.UploadedFile :=
  {| Predict.path := lit "uploads/ct-scan-1.png";
     Predict.filename := lit "ct-scan-1.png";
     Predict.size := 2048 |}.

Definition readsFile (path : jsstring) (w : unit) : (jsstring + JsError) * unit :=
  (inl (lit "PNG"), w).

Definition visionOk (path : jsstring) (image : jsstring) : Operation unit jsstring JsError :=
  fun _ w => (inl (lit "{}"), w).

Definition visionFatalSecond (path : jsstring) (image : jsstring)
  : Operation unit jsstring JsError :=
  Scenario.scripted
    [ (lit "gemini-2.0-flash", Scenario.fails "quota");
      (lit "gemini-2.0-flash-lite", Scenario.fails "fetch failed") ].

Definition fileExists (path : jsstring) (w : unit) : bool := true.
Definition removes (path : jsstring) (w : unit) : unit := w.

Definition chatOk (userMessage : jsstring) (history : list Turn)
  : Operation unit jsstring JsError :=
  fun _ w => (inl (lit "Nodules are common."), w).

Definition chatQuotaTurns (userMessage : jsstring) (history : list Turn)
  : Operation unit jsstring JsError :=
  fun _ w => (inr (Error (lit "429 Too Many Requests")), w).

Definition window : list Frontend.ChatMessage :=
  [ {| Frontend.type := lit "bot"; Frontend.msgText := lit "Hello!" |};
    {| Frontend.type := lit "user"; Frontend.msgText := lit "What is a nodule?" |};
    {| Frontend.type := lit "system"; Frontend.msgText := lit "typing" |} ].

End Fixture.

(** * Properties *)

Arguments lit : simpl never.

(** ** Substring search *)

Lemma startsWith_occurs (needle s : jsstring) :
  startsWith s needle = true <-> exists suf, s = needle ++ suf.
Proof.
  revert s; induction needle as [|a needle IH]; intros s.
  - split; [intros _; exists s; reflexivity | intros _; destruct s; reflexivity].
  - destruct s as [|b s]; cbn [startsWith].
    + split; [discriminate | intros [suf Hs]; discriminate Hs].
    + rewrite andb_true_iff; unfold code_eqb; rewrite N.eqb_eq, IH.
      split.
      * intros [-> [suf ->]]; exists suf; reflexivity.
      * intros [suf Hs]; injection Hs as -> ->; split; [reflexivity | exists suf; reflexivity].
Qed.

Lemma includes_occursIn (s needle : jsstring) :
  includes s needle = true <-> occursIn needle s.
Proof.
  unfold occursIn; induction s as [|c s IH].
  - cbn [includes]; rewrite orb_false_r, startsWith_occurs; split.
    + intros [suf Hs]; exists [], suf; exact Hs.
    + intros [pre [suf Hs]]; destruct pre; [exists suf; exact Hs | discriminate Hs].
  - cbn [includes]; rewrite orb_true_iff, startsWith_occurs, IH; split.
    + intros [[suf Hs] | [pre [suf Hs]]].
      * exists [], suf; exact Hs.
      * exists (c :: pre), suf; rewrite Hs; reflexivity.
    + intros [pre [suf Hs]]; destruct pre as [|p pre].
      * left; exists suf; exact Hs.
      * right; injection Hs as _ Hs; exists pre, suf; exact Hs.
Qed.


(** ** Classification *)

Section Classification.
Context {E : Type} `{ErrorLike E}.

Lemma classify_TransientQuota (err : E) :
  classify err = TransientQuota <-> isQuotaError err = true.
Proof.
  unfold classify; destruct (isQuotaError err), (isNotFoundError err); split; congruence.
Qed.

Lemma classify_NotFound (err : E) :
  classify err = NotFound <-> isQuotaError err = false /\ isNotFoundError err = true.
Proof.
  unfold classify; destruct (isQuotaError err), (isNotFoundError err);
    intuition congruence.
Qed.

Lemma classify_Fatal (err : E) :
  classify err = Fatal <-> isQuotaError err = false /\ isNotFoundError err = false.
Proof.
  unfold classify; destruct (isQuotaError err), (isNotFoundError err);
    intuition congruence.
Qed.

Lemma classify_Fatal_skippable (err : E) :
  classify err = Fatal <-> skippable err = false.
Proof.
  rewrite classify_Fatal; unfold skippable; apply iff_sym, orb_false_iff.
Qed.

Lemma isQuotaError_marker (err : E) :
  isQuotaError err = true <-> quotaMarker (message err).
Proof.
  unfold isQuotaError, quotaMarker.
  rewrite !orb_true_iff, !includes_occursIn; tauto.
Qed.

Lemma isNotFoundError_marker (err : E) :
  isNotFoundError err = true <-> notFoundMarker (message err).
Proof.
  unfold isNotFoundError, notFoundMarker.
  rewrite orb_true_iff, !includes_occursIn; tauto.
Qed.

Lemma isQuotaError_false_marker (err : E) :
  isQuotaError err = false <-> ~ quotaMarker (message err).
Proof.
  rewrite <- isQuotaError_marker; destruct (isQuotaError err); split; congruence.
Qed.

Lemma isNotFoundError_false_marker (err : E) :
  isNotFoundError err = false <-> ~ notFoundMarker (message err).
Proof.
  rewrite <- isNotFoundError_marker; destruct (isNotFoundError err); split; congruence.
Qed.
End Classification.

(** C4, as amended.  The class of an error is [TransientQuota] exactly when
    its message holds "429", "Too Many", "quota" or "RESOURCE_EXHAUSTED",
    each in this exact spelling; it is [NotFound] exactly when the message
    holds none of these and holds "404" or "not found" in this exact
    spelling; it is [Fatal] exactly when it holds none of the six. *)
Theorem classify_by_exact_markers :
  forall (E : Type) (H : ErrorLike E) (err : E),
    (classify err = TransientQuota <-> quotaMarker (message err)) /\
    (classify err = NotFound <->
       ~ quotaMarker (message err) /\ notFoundMarker (message err)) /\
    (classify err = Fatal <->
       ~ quotaMarker (message err) /\ ~ notFoundMarker (message err)).
Proof.
  intros E H err.
  rewrite classify_TransientQuota, classify_NotFound, classify_Fatal.
  rewrite isQuotaError_false_marker, isNotFoundError_false_marker.
  rewrite isQuotaError_marker, isNotFoundError_marker.
  tauto.
Qed.

(** C4, the claim as worded fails: "too many requests" and "Not Found" carry
    the phrases the claim matches without regard to case, and a message with
    "quota" and "404" carries a not-found marker; the code classifies the
    first two as [Fatal] and the third as [TransientQuota]. *)
Lemma case_insensitive_markers_refuted :
  Spec.transientQuota (lit "too many requests") = true /\
  classify (Error (lit "too many requests")) = Fatal /\
  Spec.notFound (lit "404 Not Found") = true /\
  Spec.notFound (lit "Model Not Found") = true /\
  classify (Error (lit "Model Not Found")) = Fatal /\
  Spec.notFound (lit "quota lookup failed (404)") = true /\
  classify (Error (lit "quota lookup failed (404)")) = TransientQuota.
Proof. repeat split; vm_compute; reflexivity. Qed.

(** C7, as amended.  The class depends on the message text alone: two errors
    with the same message, whatever else they are, get the same class.  A
    message with "429", and likewise one with "Too Many", "quota" or
    "RESOURCE_EXHAUSTED", is [TransientQuota]; a message with none of these
    and with "404" or "not found" is [NotFound]; every remaining message is
    [Fatal]. *)
Theorem classify_depends_on_message_only :
  forall (E1 E2 : Type) (H1 : ErrorLike E1) (H2 : ErrorLike E2),
    (forall (e1 : E1) (e2 : E2), message e1 = message e2 -> classify e1 = classify e2) /\
    (forall e : E1, occursIn (lit "429") (message e) -> classify e = TransientQuota) /\
    (forall e : E1, quotaMarker (message e) -> classify e = TransientQuota) /\
    (forall e : E1, ~ quotaMarker (message e) -> notFoundMarker (message e) ->
                    classify e = NotFound) /\
    (forall e : E1, ~ quotaMarker (message e) -> ~ notFoundMarker (message e) ->
                    classify e = Fatal).
Proof.
  intros E1 E2 H1 H2; repeat split.
  - intros e1 e2 Hm.
    unfold classify, isQuotaError, isNotFoundError; rewrite Hm; reflexivity.
  - intros e H429; apply classify_TransientQuota, isQuotaError_marker; left; exact H429.
  - intros e Hq; apply classify_TransientQuota, isQuotaError_marker; exact Hq.
  - intros e Hq Hn; apply classify_NotFound; split.
    + apply isQuotaError_false_marker; exact Hq.
    + apply isNotFoundError_marker; exact Hn.
  - intros e Hq Hn; apply classify_Fatal; split.
    + apply isQuotaError_false_marker; exact Hq.
    + apply isNotFoundError_false_marker; exact Hn.
Qed.

(** C7, the claim as worded fails: "RESOURCE_EXHAUSTED" holds neither "429"
    nor "404" nor "not found", so the claim makes it fatal, and a message
    with "quota" and "404" but no "429" is not-found by the claim; the code
    classifies both as [TransientQuota]. *)
Lemma remaining_messages_not_all_fatal :
  Spec.classifyTestable (lit "RESOURCE_EXHAUSTED") = Fatal /\
  classify (Error (lit "RESOURCE_EXHAUSTED")) = TransientQuota /\
  Spec.classifyTestable (lit "quota lookup failed (404)") = NotFound /\
  classify (Error (lit "quota lookup failed (404)")) = TransientQuota.
Proof. repeat split; vm_compute; reflexivity. Qed.

(** ** One turn of the loop *)

Section LoopSteps.
Context {W R E : Type} `{ErrorLike E}.
Variable fn : Operation W R E.

Lemma loop_returns m rest errors w r w' :
  fn m w = (inl r, w') ->
  tryModels_loop fn errors (m :: rest) w
  = (Returned {| result := r; modelName := m |}, w').
Proof. intros Hf; cbn [tryModels_loop]; rewrite Hf; reflexivity. Qed.

Lemma loop_skips m rest errors w err w' :
  fn m w = (inr err, w') ->
  skippable err = true ->
  tryModels_loop fn errors (m :: rest) w
  = tryModels_loop fn (errors ++ [skipDetail m err]) rest w'.
Proof.
  intros Hf Hs; cbn [tryModels_loop]; rewrite Hf.
  unfold skippable in Hs; rewrite Hs; reflexivity.
Qed.

Lemma loop_rethrows m rest errors w err w' :
  fn m w = (inr err, w') ->
  skippable err = false ->
  tryModels_loop fn errors (m :: rest) w = (Rethrown err, w').
Proof.
  intros Hf Hs; cbn [tryModels_loop]; rewrite Hf.
  unfold skippable in Hs; rewrite Hs; reflexivity.
Qed.

Lemma traced_call m w log :
  traced fn m (w, log) = (fst (fn m w), (snd (fn m w), log ++ [m])).
Proof. unfold traced; cbn [fst snd]; destruct (fn m w); reflexivity. Qed.

(** A run of skipped models takes the loop to the rest of the list, with
    one detail line more for each model, in the order of the list. *)
Lemma loop_through_attempts (P : E -> Prop) :
  (forall err, P err -> skippable err = true) ->
  forall init rest errors w w1,
    attempts fn P init w w1 ->
    exists details,
      Forall2 (fun m d => exists err, P err /\ d = skipDetail m err) init details /\
      tryModels_loop fn errors (init ++ rest) w
      = tryModels_loop fn (errors ++ details) rest w1.
Proof.
  intros HP init; induction init as [|m init IH]; intros rest errors w w1 Hat.
  - cbn [attempts] in Hat; subst w1; exists []; rewrite app_nil_r; split;
      [constructor | reflexivity].
  - cbn [attempts] in Hat; destruct Hat as (err & w' & Hf & Herr & Hat).
    destruct (IH rest (errors ++ [skipDetail m err]) w' w1 Hat) as (details & Hall & Heq).
    exists (skipDetail m err :: details); split.
    + constructor; [exists err; split; [exact Herr | reflexivity] | exact Hall].
    + cbn [app]; rewrite (@loop_skips m (init ++ rest) errors w err w' Hf (HP _ Herr)).
      rewrite Heq, <- app_assoc.
      reflexivity.
Qed.

(** The instrumented operation fails where the plain one does, and logs
    each name. *)
Lemma attempts_traced (P : E -> Prop) ms :
  forall w w1 log,
    attempts fn P ms w w1 ->
    attempts (traced fn) P ms (w, log) (w1, log ++ ms).
Proof.
  induction ms as [|m ms IH]; intros w w1 log Hat; cbn [attempts] in *.
  - subst w1; rewrite app_nil_r; reflexivity.
  - destruct Hat as (err & w' & Hf & Herr & Hat).
    exists err, (w', log ++ [m]); repeat split.
    + rewrite traced_call, Hf; reflexivity.
    + exact Herr.
    + specialize (IH w' w1 (log ++ [m]) Hat).
      rewrite <- app_assoc in IH; exact IH.
Qed.

(** Instrumenting changes neither the completion nor the world, and the
    log grows by an initial segment of the list of models. *)
Lemma traced_loop models :
  forall errors w log,
    exists calls rest,
      models = calls ++ rest /\
      tryModels_loop (traced fn) errors models (w, log)
      = (fst (tryModels_loop fn errors models w),
         (snd (tryModels_loop fn errors models w), log ++ calls)).
Proof.
  induction models as [|m models IH]; intros errors w log.
  - exists [], []; cbn [tryModels_loop fst snd]; rewrite (app_nil_r log); split; reflexivity.
  - cbn [tryModels_loop]; rewrite traced_call.
    destruct (fn m w) as [[r | err] w']; cbn [fst snd].
    + exists [m], models; split; reflexivity.
    + destruct (isQuotaError err || isNotFoundError err).
      * destruct (IH (errors ++ [skipDetail m err]) w' (log ++ [m]))
          as (calls & rest & Hm & Heq).
        exists (m :: calls), rest; split.
        -- rewrite Hm; reflexivity.
        -- rewrite Heq, <- app_assoc; reflexivity.
      * exists [m], models; split; reflexivity.
Qed.

(** What the loop can end with, whatever [errors] holds on entry. *)
Lemma loop_outcome models :
  forall errors w,
    match fst (tryModels_loop fn errors models w) with
    | Returned won =>
        In (modelName won) models /\
        exists w0 w1, fn (modelName won) w0 = (inl (result won), w1)
    | Rethrown err =>
        skippable err = false /\
        exists m w0 w1, In m models /\ fn m w0 = (inr err, w1)
    | ThrownNew msg =>
        attempts fn (fun err => skippable err = true) models w
                 (snd (tryModels_loop fn errors models w)) /\
        exists details,
          List.length details = List.length models /\
          msg = exhaustedMessage (errors ++ details)
    end.
Proof.
  induction models as [|m models IH]; intros errors w.
  - cbn [tryModels_loop fst snd attempts]; split; [reflexivity|].
    exists []; rewrite app_nil_r; split; reflexivity.
  - cbn [tryModels_loop].
    destruct (fn m w) as [[r | err] w'] eqn:Hf; cbn [fst].
    + cbn [modelName result]; split; [left; reflexivity | exists w, w'; exact Hf].
    + destruct (isQuotaError err || isNotFoundError err) eqn:Hs.
      * specialize (IH (errors ++ [skipDetail m err]) w').
        destruct (tryModels_loop fn (errors ++ [skipDetail m err]) models w')
          as [[won | err' | msg] w2]; cbn [fst snd] in *.
        -- destruct IH as [Hin Hfn]; split; [right; exact Hin | exact Hfn].
        -- destruct IH as [Hskip (m' & w0 & w1 & Hin & Hfn)]; split; [exact Hskip|].
           exists m', w0, w1; split; [right; exact Hin | exact Hfn].
        -- destruct IH as [Hat (details & Hlen & Hmsg)]; split.
           ++ cbn [attempts]; exists err, w'; repeat split; assumption.
           ++ exists (skipDetail m err :: details); split.
              ** cbn [List.length]; rewrite Hlen; reflexivity.
              ** rewrite Hmsg, <- app_assoc; reflexivity.
      * cbn [fst]; split; [exact Hs|].
        exists m, w, w'; split; [left; reflexivity | exact Hf].
Qed.
End LoopSteps.

(** ** The cascade *)

Lemma exhaustedMessage_mentions_quota (errors : list jsstring) :
  includes (exhaustedMessage errors) (lit "quota") = true.
Proof.
  apply includes_occursIn.
  exists (lit "All Gemini models ").
  exists (lit "-exceeded. Please wait a minute and try again." ++ LF ++
          lit "Details: " ++ join (lit " | ") errors ++ LF ++
          lit "Free tier allows 15" ++ EN_DASH ++
          lit "30 req/min. If you sent many requests in a row, wait 60 seconds.").
  reflexivity.
Qed.

Lemma TransientQuota_skippable {E : Type} `{ErrorLike E} (err : E) :
  classify err = TransientQuota -> skippable err = true.
Proof.
  intros Hc; apply classify_TransientQuota in Hc.
  unfold skippable; rewrite Hc; reflexivity.
Qed.

(** When every model is skipped the operation has been invoked on the whole
    list. *)
Lemma invocations_all_skipped {W R E : Type} `{ErrorLike E}
    (fn : Operation W R E) (P : E -> Prop) (models : list jsstring) (w w1 : W) :
  (forall err, P err -> skippable err = true) ->
  attempts fn P models w w1 ->
  invocations fn models w = models.
Proof.
  intros HP Hat.
  pose proof (@attempts_traced _ _ _ fn P models w w1 [] Hat) as Hat'.
  destruct (@loop_through_attempts _ _ _ _ (traced fn) P HP models [] [] _ _ Hat')
    as (details & _ & Heq).
  unfold invocations, tryModels.
  rewrite app_nil_r in Heq; rewrite Heq; reflexivity.
Qed.

(** The aggregate error of an exhausted cascade lists every model of the
    list, in order, each with the reason [skipDetail] gives it. *)
Lemma tryModels_exhausted_enumerates {W R E : Type} `{ErrorLike E}
    (fn : Operation W R E) (models : list jsstring) (w w1 : W) :
  attempts fn (fun err => skippable err = true) models w w1 ->
  exists details,
    Forall2 (fun m d => exists err, skippable err = true /\ d = skipDetail m err)
            models details /\
    tryModels fn models w = (ThrownNew (exhaustedMessage details), w1).
Proof.
  intros Hat.
  destruct (@loop_through_attempts _ _ _ _ fn _ (fun err Hs => Hs) models [] [] _ _ Hat)
    as (details & Hall & Heq).
  exists details; split; [exact Hall|].
  unfold tryModels; rewrite app_nil_r in Heq; rewrite Heq; reflexivity.
Qed.

(** C1.  When the operation throws a [TransientQuota] error on each model
    but the last of a list of N models and returns on the last, [tryModels]
    returns that result with the last model's name, and the operation has
    been invoked N times: on every model once, in the order of the list. *)
Theorem tryModels_last_wins_after_quota :
  forall (W R E : Type) (H : ErrorLike E) (fn : Operation W R E)
         (init : list jsstring) (last : jsstring) (r : R) (w w1 w2 : W),
    attempts fn (fun err => classify err = TransientQuota) init w w1 ->
    fn last w1 = (inl r, w2) ->
    tryModels fn (init ++ [last]) w
    = (Returned {| result := r; modelName := last |}, w2) /\
    invocations fn (init ++ [last]) w = init ++ [last] /\
    List.length (invocations fn (init ++ [last]) w) = S (List.length init).
Proof.
  intros W R E H fn init last r w w1 w2 Hat Hlast.
  assert (Hcalls : invocations fn (init ++ [last]) w = init ++ [last]).
  { pose proof (@attempts_traced _ _ _ fn _ init w w1 [] Hat) as Hat'.
    destruct (@loop_through_attempts _ _ _ _ (traced fn) _ (@TransientQuota_skippable E H)
                init [last] [] _ _ Hat') as (details & _ & Heq).
    unfold invocations, tryModels; rewrite Heq.
    rewrite (@loop_returns _ _ _ _ (traced fn) last [] ([] ++ details)
               (w1, [] ++ init) r (w2, init ++ [last])).
    - reflexivity.
    - rewrite traced_call, Hlast; reflexivity. }
  split; [|split].
  - destruct (@loop_through_attempts _ _ _ _ fn _ (@TransientQuota_skippable E H)
                init [last] [] _ _ Hat) as (details & _ & Heq).
    unfold tryModels; rewrite Heq; apply loop_returns; exact Hlast.
  - exact Hcalls.
  - rewrite Hcalls, length_app; cbn [List.length]; lia.
Qed.

(** C1 at three models: two quota errors, then "OK" from the third. *)
Lemma tryModels_last_wins_after_quota_witness :
  attempts Scenario.quotaThenOk (fun err => classify err = TransientQuota)
           [Scenario.m1; Scenario.m2] tt tt /\
  tryModels Scenario.quotaThenOk [Scenario.m1; Scenario.m2; Scenario.m3] tt
  = (Returned {| result := lit "OK"; modelName := Scenario.m3 |}, tt) /\
  invocations Scenario.quotaThenOk [Scenario.m1; Scenario.m2; Scenario.m3] tt
  = [Scenario.m1; Scenario.m2; Scenario.m3].
Proof.
  assert (Hat : attempts Scenario.quotaThenOk (fun err => classify err = TransientQuota)
                         [Scenario.m1; Scenario.m2] tt tt).
  { exists (Error (lit "429 Too Many Requests")), tt; repeat split.
    exists (Error (lit "quota")), tt; repeat split. }
  split; [exact Hat|].
  destruct (@tryModels_last_wins_after_quota unit jsstring JsError _
              Scenario.quotaThenOk [Scenario.m1; Scenario.m2] Scenario.m3
              (lit "OK") tt tt tt Hat eq_refl) as (Hres & Hcalls & _).
  split; [exact Hres | exact Hcalls].
Defined.

(** C2.  When the operation throws a [Fatal] error on the first model,
    [tryModels] rethrows that very error, and the operation has been invoked
    once, on the first model only. *)
Theorem tryModels_fatal_first_aborts :
  forall (W R E : Type) (H : ErrorLike E) (fn : Operation W R E)
         (m : jsstring) (rest : list jsstring) (err : E) (w w' : W),
    fn m w = (inr err, w') ->
    classify err = Fatal ->
    tryModels fn (m :: rest) w = (Rethrown err, w') /\
    invocations fn (m :: rest) w = [m].
Proof.
  intros W R E H fn m rest err w w' Hf Hc.
  apply classify_Fatal_skippable in Hc.
  split.
  - unfold tryModels; apply loop_rethrows; assumption.
  - unfold invocations, tryModels.
    rewrite (@loop_rethrows _ _ _ _ (traced fn) m rest [] (w, []) err (w', [m])).
    + reflexivity.
    + rewrite traced_call, Hf; reflexivity.
    + exact Hc.
Qed.

(** C2 at the third scenario of section 8. *)
Lemma tryModels_fatal_first_aborts_witness :
  classify (Error (lit "invalid request schema")) = Fatal /\
  tryModels Scenario.badSchema [Scenario.m1; Scenario.m2] tt
  = (Rethrown (Error (lit "invalid request schema")), tt) /\
  invocations Scenario.badSchema [Scenario.m1; Scenario.m2] tt = [Scenario.m1].
Proof.
  split; [reflexivity|].
  exact (@tryModels_fatal_first_aborts unit jsstring JsError _ Scenario.badSchema
           Scenario.m1 [Scenario.m2] (Error (lit "invalid request schema")) tt tt
           eq_refl eq_refl).
Defined.

(** C3, at the scenario of section 8.  Both models throw
    "RESOURCE_EXHAUSTED", which [isQuotaError] recognises as a quota error;
    the aggregate error lists both models in order, each with the reason
    "not found", and nowhere with the reason "quota exceeded". *)
Theorem resource_exhausted_is_reported_not_found :
  classify (Error (lit "RESOURCE_EXHAUSTED")) = TransientQuota /\
  tryModels Scenario.bothExhausted [Scenario.m1; Scenario.m2] tt
  = (ThrownNew (exhaustedMessage [lit "m1: not found"; lit "m2: not found"]), tt) /\
  includes (exhaustedMessage [lit "m1: not found"; lit "m2: not found"])
           (lit "Details: m1: not found | m2: not found") = true /\
  includes (exhaustedMessage [lit "m1: not found"; lit "m2: not found"])
           (lit "quota exceeded") = false.
Proof. repeat split; vm_compute; reflexivity. Qed.

(** C5, as amended.  A cascade ends in exactly one of three ways.  It
    returns one pair of a result and the name of a model of the list on which
    the operation returned that result.  Or it throws the aggregate error,
    and then the operation was invoked on every model of the list, each
    invocation threw a skippable error, and the message has one detail line
    per model.  Or it rethrows an error the operation threw on a model of
    the list: that error is [Fatal], and its message is not an aggregate
    message, whatever the detail lines. *)
Theorem tryModels_three_outcomes :
  forall (W R E : Type) (H : ErrorLike E) (fn : Operation W R E)
         (models : list jsstring) (w : W),
    match fst (tryModels fn models w) with
    | Returned won =>
        In (modelName won) models /\
        exists w0 w1, fn (modelName won) w0 = (inl (result won), w1)
    | ThrownNew msg =>
        invocations fn models w = models /\
        attempts fn (fun err => skippable err = true) models w
                 (snd (tryModels fn models w)) /\
        exists details,
          List.length details = List.length models /\
          msg = exhaustedMessage details
    | Rethrown err =>
        classify err = Fatal /\
        (exists m w0 w1, In m models /\ fn m w0 = (inr err, w1)) /\
        forall details, message err <> exhaustedMessage details
    end.
Proof.
  intros W R E H fn models w.
  pose proof (loop_outcome fn models [] w) as Hout.
  unfold tryModels.
  destruct (tryModels_loop fn [] models w) as [[won | err | msg] w1];
    cbn [fst snd] in *.
  - exact Hout.
  - destruct Hout as [Hs Hfrom]; split; [|split].
    + apply classify_Fatal_skippable; exact Hs.
    + exact Hfrom.
    + intros details Hmsg.
      pose proof (exhaustedMessage_mentions_quota details) as Hq.
      rewrite <- Hmsg in Hq.
      unfold skippable, isQuotaError in Hs.
      rewrite Hq, !orb_true_r in Hs; cbn in Hs; discriminate Hs.
  - destruct Hout as [Hat Hdetails]; split; [|split].
    + exact (@invocations_all_skipped W R E H fn _ models w w1 (fun err Hs => Hs) Hat).
    + exact Hat.
    + exact Hdetails.
Qed.

(** C5, the claim as worded fails: a cascade whose first model throws
    "invalid request schema" neither returns a pair nor throws the aggregate
    error. *)
Lemma fatal_abort_is_a_third_outcome :
  (forall won, fst (tryModels Scenario.badSchema [Scenario.m1; Scenario.m2] tt)
               <> Returned won) /\
  (forall msg, fst (tryModels Scenario.badSchema [Scenario.m1; Scenario.m2] tt)
               <> ThrownNew msg).
Proof.
  assert (Heq : tryModels Scenario.badSchema [Scenario.m1; Scenario.m2] tt
                = (Rethrown (Error (lit "invalid request schema")), tt))
    by (vm_compute; reflexivity).
  rewrite Heq; split; intros x; discriminate.
Qed.

(** C6.  The operation is invoked on an initial segment of the list of
    models: the k-th invocation is on the k-th model, so no model is invoked
    out of order, twice, or again after it failed.  The instrumented run
    that records the invocations completes as the plain run does. *)
Theorem tryModels_invokes_in_order_once :
  forall (W R E : Type) (H : ErrorLike E) (fn : Operation W R E)
         (models : list jsstring) (w : W),
    (exists rest, models = invocations fn models w ++ rest) /\
    (forall k m, nth_error (invocations fn models w) k = Some m ->
                 nth_error models k = Some m) /\
    List.length (invocations fn models w) <= List.length models /\
    tryModels (traced fn) models (w, [])
    = (fst (tryModels fn models w),
       (snd (tryModels fn models w), invocations fn models w)).
Proof.
  intros W R E H fn models w.
  destruct (traced_loop fn models [] w []) as (calls & rest & Hm & Heq).
  assert (Hcalls : invocations fn models w = calls).
  { unfold invocations, tryModels; rewrite Heq; reflexivity. }
  rewrite Hcalls; repeat split.
  - exists rest; exact Hm.
  - intros k m Hk; rewrite Hm.
    rewrite nth_error_app1; [exact Hk|].
    apply nth_error_Some; congruence.
  - rewrite Hm, length_app; lia.
  - unfold tryModels; rewrite Heq; reflexivity.
Qed.

(** C8.  An error whose message carries a quota marker and a not-found
    marker is classified [TransientQuota], the test that comes first, and
    the loop skips the model: it goes on with the rest of the list, one
    detail line longer. *)
Theorem quota_takes_precedence_and_skips :
  forall (W R E : Type) (H : ErrorLike E) (fn : Operation W R E)
         (m : jsstring) (rest errors : list jsstring) (err : E) (w w' : W),
    isQuotaError err = true ->
    isNotFoundError err = true ->
    fn m w = (inr err, w') ->
    classify err = TransientQuota /\
    tryModels_loop fn errors (m :: rest) w
    = tryModels_loop fn (errors ++ [skipDetail m err]) rest w'.
Proof.
  intros W R E H fn m rest errors err w w' Hq Hn Hf; split.
  - apply classify_TransientQuota; exact Hq.
  - apply loop_skips; [exact Hf|].
    unfold skippable; rewrite Hq; reflexivity.
Qed.

(** C8 at a message with "quota" and "404": the second model is reached. *)
Lemma quota_takes_precedence_and_skips_witness :
  isQuotaError (Error (lit "quota lookup failed (404)")) = true /\
  isNotFoundError (Error (lit "quota lookup failed (404)")) = true /\
  classify (Error (lit "quota lookup failed (404)")) = TransientQuota /\
  tryModels Scenario.overlapping [Scenario.m1; Scenario.m2] tt
  = (Returned {| result := lit "OK"; modelName := Scenario.m2 |}, tt).
Proof.
  assert (Hq : isQuotaError (Error (lit "quota lookup failed (404)")) = true)
    by (vm_compute; reflexivity).
  assert (Hn : isNotFoundError (Error (lit "quota lookup failed (404)")) = true)
    by (vm_compute; reflexivity).
  assert (Hf : Scenario.overlapping Scenario.m1 tt
               = (inr (Error (lit "quota lookup failed (404)")), tt))
    by (vm_compute; reflexivity).
  destruct (@quota_takes_precedence_and_skips unit jsstring JsError _
              Scenario.overlapping Scenario.m1 [Scenario.m2] []
              (Error (lit "quota lookup failed (404)")) tt tt Hq Hn Hf) as [Hc Hstep].
  split; [exact Hq | split; [exact Hn | split; [exact Hc|]]].
  unfold tryModels; rewrite Hstep; vm_compute; reflexivity.
Defined.

(** ** The callers and the chatbot route *)

Lemma jsstring_eqb_nil_r (s : jsstring) : jsstring_eqb s [] = true <-> s = [].
Proof. destruct s; cbn [jsstring_eqb]; split; congruence. Qed.

Lemma trim_nonempty (s : jsstring) : trim s <> [] -> s <> [].
Proof. intros Ht Hs; apply Ht; rewrite Hs; reflexivity. Qed.

Lemma keyMissing_unset_or_placeholder (key : option jsstring) :
  key = None \/ key = Some KEY_PLACEHOLDER -> keyMissing key = true.
Proof. intros [-> | ->]; reflexivity. Qed.

(** C9.  For a request whose message is a string that is not blank and has
    at most 1000 code units, if [getChatbotResponse] does not return (the
    cascade is exhausted, an error is rethrown, the key is missing, or the
    text of the response cannot be read), the route answers with status 200,
    [success: true], the reply of [getRuleBasedResponse] and the engine
    "rule-based", and no [error] field. *)
Theorem chatbot_failure_falls_back_to_rules :
  forall (W Resp Hist E : Type) (H : ErrorLike E) (key : option jsstring)
         (sendMessage : jsstring -> Hist -> Operation W Resp E)
         (responseText : Resp -> jsstring + E)
         (toLowerCase : jsstring -> jsstring) (emptyHistory : Hist)
         (isoNow : W -> jsstring)
         (msg : jsstring) (history : option Hist) (w : W),
    trim msg <> [] ->
    List.length msg <= 1000 ->
    (forall text,
        fst (getChatbotResponse key sendMessage responseText msg
               (match history with Some h => h | None => emptyHistory end) w)
        <> Returned text) ->
    exists w',
      postChatbot key sendMessage responseText toLowerCase emptyHistory isoNow
        (Some {| body_message := MsgString msg; body_history := history |}) w
      = ({| status := 200;
            json := {| success := true;
                       error := None;
                       reply := getRuleBasedResponse toLowerCase msg;
                       engine := Some (lit "rule-based");
                       timestamp := Some (isoNow w') |} |}, w').
Proof.
  intros W Resp Hist E H key sendMessage responseText toLowerCase emptyHistory
         isoNow msg history w Htrim Hlen Hfail.
  unfold postChatbot; cbn [body_message body_history].
  destruct (jsstring_eqb msg []) eqn:Hempty.
  { apply jsstring_eqb_nil_r in Hempty; exfalso; exact (trim_nonempty Htrim Hempty). }
  destruct (jsstring_eqb (trim msg) []) eqn:Hblank.
  { apply jsstring_eqb_nil_r in Hblank; contradiction. }
  cbn [orb].
  apply Nat.ltb_ge in Hlen; rewrite Hlen.
  destruct (keyMissing key); cbn [negb].
  - exists w; reflexivity.
  - destruct (getChatbotResponse key sendMessage responseText msg
                (match history with Some h => h | None => emptyHistory end) w)
      as [[text | err | m] w'] eqn:Hresp; cbn [fst] in Hfail.
    + exfalso; exact (Hfail text eq_refl).
    + exists w'; reflexivity.
    + exists w'; reflexivity.
Qed.

(** C9 at a greeting, with a key set and every chat model out of quota. *)
Lemma chatbot_failure_falls_back_to_rules_witness :
  trim (lit "Hello there") <> [] /\
  List.length (lit "Hello there") <= 1000 /\
  fst (postChatbot (Some (lit "AIzaSy-test-key")) Scenario.chatOutOfQuota
         Scenario.textOf Scenario.asciiToLowerCase [] Scenario.epoch
         (Some {| body_message := MsgString (lit "Hello there");
                  body_history := None |}) tt)
  = {| status := 200;
       json := {| success := true;
                  error := None;
                  reply := getRuleBasedResponse Scenario.asciiToLowerCase
                                                (lit "Hello there");
                  engine := Some (lit "rule-based");
                  timestamp := Some (Scenario.epoch tt) |} |}.
Proof.
  assert (Htrim : trim (lit "Hello there") <> []) by (vm_compute; discriminate).
  assert (Hlen : List.length (lit "Hello there") <= 1000) by (vm_compute; lia).
  assert (Hfail : forall text,
             fst (getChatbotResponse (Some (lit "AIzaSy-test-key"))
                    Scenario.chatOutOfQuota Scenario.textOf (lit "Hello there")
                    (match @None (list jsstring) with Some h => h | None => [] end) tt)
             <> Returned text).
  { intros text.
    assert (Hresp : exists m,
               fst (getChatbotResponse (Some (lit "AIzaSy-test-key"))
                      Scenario.chatOutOfQuota Scenario.textOf (lit "Hello there")
                      (@nil jsstring) tt)
               = @ThrownNew jsstring JsError m)
      by (eexists; vm_compute; reflexivity).
    destruct Hresp as [m Hresp]; cbn iota; rewrite Hresp; discriminate. }
  destruct (@chatbot_failure_falls_back_to_rules unit jsstring (list jsstring)
              JsError _ (Some (lit "AIzaSy-test-key")) Scenario.chatOutOfQuota
              Scenario.textOf Scenario.asciiToLowerCase [] Scenario.epoch
              (lit "Hello there") None tt Htrim Hlen Hfail) as [w' Hpost].
  split; [exact Htrim | split; [exact Hlen|]].
  rewrite Hpost; destruct w'; reflexivity.
Defined.

(** C10.  When [GEMINI_API_KEY] is unset or is the placeholder, both
    [analyzeCTScan] and [getChatbotResponse] throw their configuration error
    and leave the world as it was, whatever the file system and the
    operations would do; run with instrumented operations, they leave the
    log of invocations as it was: no model is attempted. *)
Theorem missing_key_never_enters_cascade :
  forall (W Image Resp Report Hist E : Type) (H : ErrorLike E)
         (key : option jsstring)
         (readFileSync : jsstring -> W -> (Image + E) * W)
         (generateContent : jsstring -> Image -> Operation W Resp E)
         (buildReport : Resp -> jsstring -> W -> Report + E)
         (sendMessage : jsstring -> Hist -> Operation W Resp E)
         (responseText : Resp -> jsstring + E)
         (imagePath userMessage : jsstring) (history : Hist)
         (w : W) (log : list jsstring),
    key = None \/ key = Some KEY_PLACEHOLDER ->
    analyzeCTScan key readFileSync generateContent buildReport imagePath w
    = (ThrownNew VISION_KEY_ERROR, w) /\
    getChatbotResponse key sendMessage responseText userMessage history w
    = (ThrownNew CHAT_KEY_ERROR, w) /\
    snd (snd (analyzeCTScan key
                (fun path => keepLog (readFileSync path))
                (fun path image => traced (generateContent path image))
                (fun r name wl => buildReport r name (fst wl))
                imagePath (w, log))) = log /\
    snd (snd (getChatbotResponse key
                (fun text hist => traced (sendMessage text hist))
                responseText userMessage history (w, log))) = log.
Proof.
  intros W Image Resp Report Hist E H key readFileSync generateContent buildReport
         sendMessage responseText imagePath userMessage history w log Hkey.
  apply keyMissing_unset_or_placeholder in Hkey.
  unfold analyzeCTScan, getChatbotResponse; rewrite Hkey.
  repeat split; reflexivity.
Qed.

(** C10 at an unset key and at the placeholder. *)
Lemma missing_key_never_enters_cascade_witness :
  analyzeCTScan None Scenario.noFile Scenario.visionOutOfQuota Scenario.rawReport
                (lit "uploads/ct-scan-1.png") tt
  = (ThrownNew VISION_KEY_ERROR, tt) /\
  getChatbotResponse (Some KEY_PLACEHOLDER) Scenario.chatOutOfQuota Scenario.textOf
                     (lit "Hello there") [] tt
  = (ThrownNew CHAT_KEY_ERROR, tt).
Proof.
  split.
  - exact (proj1 (@missing_key_never_enters_cascade unit jsstring jsstring jsstring
                    (list jsstring) JsError _ None Scenario.noFile
                    Scenario.visionOutOfQuota Scenario.rawReport
                    Scenario.chatOutOfQuota Scenario.textOf
                    (lit "uploads/ct-scan-1.png") (lit "Hello there") [] tt []
                    (or_introl eq_refl))).
  - exact (proj1 (proj2 (@missing_key_never_enters_cascade unit jsstring jsstring
                    jsstring (list jsstring) JsError _ (Some KEY_PLACEHOLDER)
                    Scenario.noFile Scenario.visionOutOfQuota Scenario.rawReport
                    Scenario.chatOutOfQuota Scenario.textOf
                    (lit "uploads/ct-scan-1.png") (lit "Hello there") [] tt []
                    (or_intror eq_refl)))).
Defined.

(** ** The scenarios of section 8, run *)

Example third_model_wins :
  tryModels Scenario.thirdWins [Scenario.m1; Scenario.m2; Scenario.m3] tt
  = (Returned {| result := lit "OK"; modelName := Scenario.m3 |}, tt) /\
  invocations Scenario.thirdWins [Scenario.m1; Scenario.m2; Scenario.m3] tt
  = [Scenario.m1; Scenario.m2; Scenario.m3].
Proof. split; vm_compute; reflexivity. Qed.

Example bad_schema_stops_at_first :
  invocations Scenario.badSchema [Scenario.m1; Scenario.m2] tt = [Scenario.m1].
Proof. vm_compute; reflexivity. Qed.

Example greeting_gets_rule_based_hello :
  startsWith (getRuleBasedResponse Scenario.asciiToLowerCase (lit "  Hey, doc "))
             (lit "Hello! I'm your AI Medical Assistant") = true.
Proof. vm_compute; reflexivity. Qed.

Example blank_message_is_refused :
  status (fst (postChatbot (Some (lit "AIzaSy-test-key")) Scenario.chatOutOfQuota
                 Scenario.textOf Scenario.asciiToLowerCase [] Scenario.epoch
                 (Some {| body_message := MsgString (lit "   ");
                          body_history := None |}) tt)) = 400.
Proof. vm_compute; reflexivity. Qed.

(** * Further properties *)

(** ** The cascade, in general position *)

(** X1.  First success wins: when the models before [m] are all skipped and
    the operation returns on [m], [tryModels] returns that result with the
    name [m], whatever follows [m] in the list, and the operation has been
    invoked on the models up to [m] and on none after it. *)
Theorem tryModels_first_success_wins :
  forall (W R E : Type) (H : ErrorLike E) (fn : Operation W R E)
         (init : list jsstring) (m : jsstring) (rest : list jsstring)
         (r : R) (w w1 w2 : W),
    attempts fn (fun err => skippable err = true) init w w1 ->
    fn m w1 = (inl r, w2) ->
    tryModels fn (init ++ m :: rest) w
    = (Returned {| result := r; modelName := m |}, w2) /\
    invocations fn (init ++ m :: rest) w = init ++ [m].
Proof.
  intros W R E H fn init m rest r w w1 w2 Hat Hm; split.
  - destruct (@loop_through_attempts _ _ _ _ fn _ (fun err Hs => Hs)
                init (m :: rest) [] _ _ Hat) as (details & _ & Heq).
    unfold tryModels; rewrite Heq; apply loop_returns; exact Hm.
  - pose proof (@attempts_traced _ _ _ fn _ init w w1 [] Hat) as Hat'.
    destruct (@loop_through_attempts _ _ _ _ (traced fn) _ (fun err Hs => Hs)
                init (m :: rest) [] _ _ Hat') as (details & _ & Heq).
    unfold invocations, tryModels; rewrite Heq.
    rewrite (@loop_returns _ _ _ _ (traced fn) m rest ([] ++ details)
               (w1, [] ++ init) r (w2, init ++ [m])).
    + reflexivity.
    + rewrite traced_call, Hm; reflexivity.
Qed.

(** X1 at two models after the winner's predecessor: the third is not asked. *)
Lemma tryModels_first_success_wins_witness :
  tryModels Scenario.overlapping [Scenario.m1; Scenario.m2; Scenario.m3] tt
  = (Returned {| result := lit "OK"; modelName := Scenario.m2 |}, tt) /\
  invocations Scenario.overlapping [Scenario.m1; Scenario.m2; Scenario.m3] tt
  = [Scenario.m1; Scenario.m2].
Proof.
  assert (Hat : attempts Scenario.overlapping (fun err => skippable err = true)
                         [Scenario.m1] tt tt).
  { exists (Error (lit "quota lookup failed (404)")), tt; repeat split. }
  exact (@tryModels_first_success_wins unit jsstring JsError _ Scenario.overlapping
           [Scenario.m1] Scenario.m2 [Scenario.m3] (lit "OK") tt tt tt Hat eq_refl).
Defined.

(** X2.  A fatal error anywhere in the list stops the cascade there: when
    the models before [m] are all skipped and the operation throws on [m] an
    error that is neither a quota nor a not-found error, [tryModels]
    rethrows that error, and the operation has been invoked on the models up
    to [m] and on none after it. *)
Theorem tryModels_fatal_stops_midway :
  forall (W R E : Type) (H : ErrorLike E) (fn : Operation W R E)
         (init : list jsstring) (m : jsstring) (rest : list jsstring)
         (err : E) (w w1 w2 : W),
    attempts fn (fun e => skippable e = true) init w w1 ->
    fn m w1 = (inr err, w2) ->
    skippable err = false ->
    tryModels fn (init ++ m :: rest) w = (Rethrown err, w2) /\
    invocations fn (init ++ m :: rest) w = init ++ [m].
Proof.
  intros W R E H fn init m rest err w w1 w2 Hat Hm Hfatal; split.
  - destruct (@loop_through_attempts _ _ _ _ fn _ (fun e Hs => Hs)
                init (m :: rest) [] _ _ Hat) as (details & _ & Heq).
    unfold tryModels; rewrite Heq; apply loop_rethrows; assumption.
  - pose proof (@attempts_traced _ _ _ fn _ init w w1 [] Hat) as Hat'.
    destruct (@loop_through_attempts _ _ _ _ (traced fn) _ (fun e Hs => Hs)
                init (m :: rest) [] _ _ Hat') as (details & _ & Heq).
    unfold invocations, tryModels; rewrite Heq.
    rewrite (@loop_rethrows _ _ _ _ (traced fn) m rest ([] ++ details)
               (w1, [] ++ init) err (w2, init ++ [m])).
    + reflexivity.
    + rewrite traced_call, Hm; reflexivity.
    + exact Hfatal.
Qed.

(** X2 on the vision models: quota on the first, a network error on the second. *)
Lemma tryModels_fatal_stops_midway_witness :
  tryModels (Fixture.visionFatalSecond [] []) VISION_MODELS tt
  = (Rethrown (Error (lit "fetch failed")), tt) /\
  invocations (Fixture.visionFatalSecond [] []) VISION_MODELS tt
  = [lit "gemini-2.0-flash"; lit "gemini-2.0-flash-lite"].
Proof.
  assert (Hat : attempts (Fixture.visionFatalSecond [] [])
                         (fun e => skippable e = true) [lit "gemini-2.0-flash"] tt tt).
  { exists (Error (lit "quota")), tt; repeat split. }
  exact (@tryModels_fatal_stops_midway unit jsstring JsError _
           (Fixture.visionFatalSecond [] []) [lit "gemini-2.0-flash"]
           (lit "gemini-2.0-flash-lite")
           [lit "gemini-2.5-flash"; lit "gemini-flash-lite-latest"]
           (Error (lit "fetch failed")) tt tt tt Hat eq_refl eq_refl).
Defined.

(** X3.  When every model of the list is skipped, [tryModels] throws the
    aggregate error: its detail lines are the lines [skipDetail] makes for
    the models, one per model and in the order of the list; the operation
    has been invoked on the whole list; and the aggregate error is itself a
    quota error for [isQuotaError]. *)
Theorem tryModels_exhausted_lists_every_model :
  forall (W R E : Type) (H : ErrorLike E) (fn : Operation W R E)
         (models : list jsstring) (w w1 : W),
    attempts fn (fun err => skippable err = true) models w w1 ->
    exists details,
      Forall2 (fun m d => exists err, skippable err = true /\ d = skipDetail m err)
              models details /\
      tryModels fn models w = (ThrownNew (exhaustedMessage details), w1) /\
      invocations fn models w = models /\
      isQuotaError (Error (exhaustedMessage details)) = true.
Proof.
  intros W R E H fn models w w1 Hat.
  destruct (@tryModels_exhausted_enumerates W R E H fn models w w1 Hat)
    as (details & Hall & Heq).
  exists details; repeat split.
  - exact Hall.
  - exact Heq.
  - exact (@invocations_all_skipped W R E H fn _ models w w1 (fun err Hs => Hs) Hat).
  - unfold isQuotaError; cbn [message JsError_ErrorLike error_message].
    rewrite (exhaustedMessage_mentions_quota details), !orb_true_r; reflexivity.
Qed.

(** X3 at the second scenario of section 8: both models are listed. *)
Lemma tryModels_exhausted_lists_every_model_witness :
  exists details,
    Forall2 (fun m d => exists err : JsError,
                 skippable err = true /\ d = skipDetail m err)
            [Scenario.m1; Scenario.m2] details /\
    tryModels Scenario.bothExhausted [Scenario.m1; Scenario.m2] tt
    = (ThrownNew (exhaustedMessage details), tt) /\
    invocations Scenario.bothExhausted [Scenario.m1; Scenario.m2] tt
    = [Scenario.m1; Scenario.m2] /\
    isQuotaError (Error (exhaustedMessage details)) = true.
Proof.
  assert (Hat : attempts Scenario.bothExhausted (fun err => skippable err = true)
                         [Scenario.m1; Scenario.m2] tt tt).
  { exists (Error (lit "RESOURCE_EXHAUSTED")), tt; repeat split.
    exists (Error (lit "RESOURCE_EXHAUSTED")), tt; repeat split. }
  exact (@tryModels_exhausted_lists_every_model unit jsstring JsError _
           Scenario.bothExhausted [Scenario.m1; Scenario.m2] tt tt Hat).
Defined.

(** ** The callers, instrumented *)

(** Instrumenting [analyzeCTScan] changes neither its completion nor the
    world, and the log grows by an initial segment of [VISION_MODELS]. *)
Lemma analyzeCTScan_traced
    {W Image Resp Report E : Type} `{ErrorLike E} (key : option jsstring)
    (readFileSync : jsstring -> W -> (Image + E) * W)
    (generateContent : jsstring -> Image -> Operation W Resp E)
    (buildReport : Resp -> jsstring -> W -> Report + E)
    (imagePath : jsstring) (w : W) (log : list jsstring) :
  exists calls rest,
    VISION_MODELS = calls ++ rest /\
    analyzeCTScan key
      (fun path => keepLog (readFileSync path))
      (fun path image => traced (generateContent path image))
      (fun r name wl => buildReport r name (fst wl))
      imagePath (w, log)
    = (fst (analyzeCTScan key readFileSync generateContent buildReport imagePath w),
       (snd (analyzeCTScan key readFileSync generateContent buildReport imagePath w),
        log ++ calls)).
Proof.
  unfold analyzeCTScan.
  destruct (keyMissing key).
  { exists [], VISION_MODELS; rewrite app_nil_r; split; reflexivity. }
  unfold keepLog; cbn [fst snd].
  destruct (readFileSync imagePath w) as [[image | err] w1].
  - destruct (traced_loop (generateContent imagePath image) VISION_MODELS [] w1 log)
      as (calls & rest & Hm & Heq).
    exists calls, rest; split; [exact Hm|].
    unfold tryModels; rewrite Heq.
    destruct (tryModels_loop (generateContent imagePath image) [] VISION_MODELS w1)
      as [[won | err | msg] w2]; cbn [fst snd]; try reflexivity.
    destruct (buildReport (result won) (modelName won) w2); reflexivity.
  - exists [], VISION_MODELS; rewrite app_nil_r; split; reflexivity.
Qed.

Lemma getChatbotResponse_traced
    {W Resp Hist E : Type} `{ErrorLike E} (key : option jsstring)
    (sendMessage : jsstring -> Hist -> Operation W Resp E)
    (responseText : Resp -> jsstring + E)
    (userMessage : jsstring) (history : Hist) (w : W) (log : list jsstring) :
  exists calls rest,
    CHAT_MODELS = calls ++ rest /\
    getChatbotResponse key
      (fun msg hist => traced (sendMessage msg hist))
      responseText userMessage history (w, log)
    = (fst (getChatbotResponse key sendMessage responseText userMessage history w),
       (snd (getChatbotResponse key sendMessage responseText userMessage history w),
        log ++ calls)).
Proof.
  unfold getChatbotResponse.
  destruct (keyMissing key).
  { exists [], CHAT_MODELS; rewrite app_nil_r; split; reflexivity. }
  destruct (traced_loop (sendMessage userMessage history) CHAT_MODELS [] w log)
    as (calls & rest & Hm & Heq).
  exists calls, rest; split; [exact Hm|].
  unfold tryModels; rewrite Heq.
  destruct (tryModels_loop (sendMessage userMessage history) [] CHAT_MODELS w)
    as [[won | err | msg] w1]; cbn [fst snd]; try reflexivity.
  destruct (responseText (result won)); reflexivity.
Qed.

(** X4.  One scan or one chat turn costs at most four model calls: the
    instrumented [analyzeCTScan] and [getChatbotResponse] complete as the
    plain ones do, and the models they invoke the operation on are an
    initial segment of [VISION_MODELS], respectively [CHAT_MODELS]. *)
Theorem callers_invoke_configured_models_in_order :
  forall (W Image Resp Report Hist E : Type) (H : ErrorLike E)
         (key : option jsstring)
         (readFileSync : jsstring -> W -> (Image + E) * W)
         (generateContent : jsstring -> Image -> Operation W Resp E)
         (buildReport : Resp -> jsstring -> W -> Report + E)
         (sendMessage : jsstring -> Hist -> Operation W Resp E)
         (responseText : Resp -> jsstring + E)
         (imagePath userMessage : jsstring) (history : Hist) (w : W),
    (exists calls rest,
        VISION_MODELS = calls ++ rest /\ List.length calls <= 4 /\
        analyzeCTScan key
          (fun path => keepLog (readFileSync path))
          (fun path image => traced (generateContent path image))
          (fun r name wl => buildReport r name (fst wl))
          imagePath (w, [])
        = (fst (analyzeCTScan key readFileSync generateContent buildReport imagePath w),
           (snd (analyzeCTScan key readFileSync generateContent buildReport imagePath w),
            calls))) /\
    (exists calls rest,
        CHAT_MODELS = calls ++ rest /\ List.length calls <= 4 /\
        getChatbotResponse key
          (fun msg hist => traced (sendMessage msg hist))
          responseText userMessage history (w, [])
        = (fst (getChatbotResponse key sendMessage responseText userMessage history w),
           (snd (getChatbotResponse key sendMessage responseText userMessage history w),
            calls))).
Proof.
  intros W Image Resp Report Hist E H key readFileSync generateContent buildReport
         sendMessage responseText imagePath userMessage history w.
  split.
  - destruct (analyzeCTScan_traced key readFileSync generateContent buildReport
                imagePath w []) as (calls & rest & Hm & Heq).
    exists calls, rest; repeat split; [exact Hm | | exact Heq].
    apply (f_equal (@List.length jsstring)) in Hm.
    rewrite length_app in Hm; cbn [VISION_MODELS List.length] in Hm; lia.
  - destruct (getChatbotResponse_traced key sendMessage responseText
                userMessage history w []) as (calls & rest & Hm & Heq).
    exists calls, rest; repeat split; [exact Hm | | exact Heq].
    apply (f_equal (@List.length jsstring)) in Hm.
    rewrite length_app in Hm; cbn [CHAT_MODELS List.length] in Hm; lia.
Qed.

(** X5.  When the key is configured and the uploaded file cannot be read,
    [analyzeCTScan] rethrows the error of [readFileSync] and attempts no
    model. *)
Theorem analyzeCTScan_unreadable_file_skips_cascade :
  forall (W Image Resp Report E : Type) (H : ErrorLike E)
         (key : option jsstring)
         (readFileSync : jsstring -> W -> (Image + E) * W)
         (generateContent : jsstring -> Image -> Operation W Resp E)
         (buildReport : Resp -> jsstring -> W -> Report + E)
         (imagePath : jsstring) (err : E) (w w1 : W) (log : list jsstring),
    keyMissing key = false ->
    readFileSync imagePath w = (inr err, w1) ->
    analyzeCTScan key readFileSync generateContent buildReport imagePath w
    = (Rethrown err, w1) /\
    analyzeCTScan key
      (fun path => keepLog (readFileSync path))
      (fun path image => traced (generateContent path image))
      (fun r name wl => buildReport r name (fst wl))
      imagePath (w, log)
    = (Rethrown err, (w1, log)).
Proof.
  intros W Image Resp Report E H key readFileSync generateContent buildReport
         imagePath err w w1 log Hkey Hread.
  unfold analyzeCTScan, keepLog; cbn [fst snd]; rewrite Hkey, Hread.
  split; reflexivity.
Qed.

(** X5 with a key set and a file that is not there. *)
Lemma analyzeCTScan_unreadable_file_skips_cascade_witness :
  analyzeCTScan (Some (lit "AIzaSy-test-key")) Scenario.noFile
                Scenario.visionOutOfQuota Scenario.rawReport
                (lit "uploads/ct-scan-1.png") tt
  = (Rethrown (Error (lit "ENOENT: no such file or directory")), tt).
Proof.
  exact (proj1 (@analyzeCTScan_unreadable_file_skips_cascade unit jsstring jsstring
                  jsstring JsError _ (Some (lit "AIzaSy-test-key")) Scenario.noFile
                  Scenario.visionOutOfQuota Scenario.rawReport
                  (lit "uploads/ct-scan-1.png")
                  (Error (lit "ENOENT: no such file or directory")) tt tt []
                  eq_refl eq_refl)).
Defined.

(** X6.  A text returned by [getChatbotResponse] is the text of a response
    that the chat operation returned on one of the four [CHAT_MODELS]; and
    the key is then configured. *)
Theorem getChatbotResponse_text_comes_from_a_chat_model :
  forall (W Resp Hist E : Type) (H : ErrorLike E) (key : option jsstring)
         (sendMessage : jsstring -> Hist -> Operation W Resp E)
         (responseText : Resp -> jsstring + E)
         (userMessage : jsstring) (history : Hist) (w : W) (reply : jsstring),
    fst (getChatbotResponse key sendMessage responseText userMessage history w)
    = Returned reply ->
    keyMissing key = false /\
    exists (name : jsstring) (r : Resp) (w0 w1 : W),
      In name CHAT_MODELS /\
      sendMessage userMessage history name w0 = (inl r, w1) /\
      responseText r = inl reply.
Proof.
  intros W Resp Hist E H key sendMessage responseText userMessage history w reply.
  unfold getChatbotResponse.
  destruct (keyMissing key); cbn [fst]; [discriminate|].
  pose proof (loop_outcome (sendMessage userMessage history) CHAT_MODELS [] w) as Hout.
  unfold tryModels.
  destruct (tryModels_loop (sendMessage userMessage history) [] CHAT_MODELS w)
    as [[won | err | msg] w1]; cbn [fst] in *; try discriminate.
  destruct (responseText (result won)) as [t | err] eqn:Htext; cbn [fst];
    [|discriminate].
  intros Hret; injection Hret as ->; split; [reflexivity|].
  destruct Hout as [Hin (w0 & w2 & Hfn)].
  exists (modelName won), (result won), w0, w2; repeat split; assumption.
Qed.

(** X6 with a first chat model that answers. *)
Lemma getChatbotResponse_text_comes_from_a_chat_model_witness :
  keyMissing (Some (lit "AIzaSy-test-key")) = false /\
  exists (name : jsstring) (r : jsstring) (w0 w1 : unit),
    In name CHAT_MODELS /\
    Fixture.chatOk (lit "What is a nodule?") [] name w0 = (inl r, w1) /\
    Scenario.textOf r = inl (lit "Nodules are common.").
Proof.
  exact (@getChatbotResponse_text_comes_from_a_chat_model unit jsstring (list Turn)
           JsError _ (Some (lit "AIzaSy-test-key")) Fixture.chatOk Scenario.textOf
           (lit "What is a nodule?") [] tt (lit "Nodules are common.") eq_refl).
Defined.

(** ** The chatbot route, beyond the fallback *)

Lemma jsstring_eqb_nil_false (s : jsstring) : jsstring_eqb s [] = false <-> s <> [].
Proof. destruct s; cbn [jsstring_eqb]; split; congruence. Qed.

Lemma hasApiKey_keyMissing (key : option jsstring) :
  Info.hasApiKey key = negb (keyMissing key).
Proof.
  destruct key as [k|]; [|reflexivity].
  unfold Info.hasApiKey, keyMissing; rewrite negb_orb; reflexivity.
Qed.

(** X7.  A request whose message is missing, empty or blank is answered
    with status 400 and "No message provided"; the world is left as it was,
    so no model is called, whatever the key. *)
Theorem postChatbot_refuses_blank_message :
  forall (W Resp Hist E : Type) (H : ErrorLike E) (key : option jsstring)
         (sendMessage : jsstring -> Hist -> Operation W Resp E)
         (responseText : Resp -> jsstring + E)
         (toLowerCase : jsstring -> jsstring) (emptyHistory : Hist)
         (isoNow : W -> jsstring)
         (field : MessageField) (history : option Hist) (w : W),
    field = MsgFalsy \/ (exists s, field = MsgString s /\ trim s = []) ->
    postChatbot key sendMessage responseText toLowerCase emptyHistory isoNow
      (Some {| body_message := field; body_history := history |}) w
    = ({| status := 400;
          json := {| success := false;
                     error := Some (lit "No message provided");
                     reply := lit "Please send a message.";
                     engine := None;
                     timestamp := None |} |}, w).
Proof.
  intros W Resp Hist E H key sendMessage responseText toLowerCase emptyHistory
         isoNow field history w [-> | (s & -> & Hblank)].
  - reflexivity.
  - unfold postChatbot; cbn [body_message].
    rewrite Hblank; cbn [jsstring_eqb]; rewrite orb_true_r; reflexivity.
Qed.

(** X7 at a message of three spaces, with a key set. *)
Lemma postChatbot_refuses_blank_message_witness :
  status (fst (postChatbot (Some (lit "AIzaSy-test-key")) Fixture.chatOk
                 Scenario.textOf Scenario.asciiToLowerCase [] Scenario.epoch
                 (Some {| body_message := MsgString (lit "   ");
                          body_history := None |}) tt)) = 400.
Proof.
  rewrite (@postChatbot_refuses_blank_message unit jsstring (list Turn) JsError _
             (Some (lit "AIzaSy-test-key")) Fixture.chatOk Scenario.textOf
             Scenario.asciiToLowerCase [] Scenario.epoch
             (MsgString (lit "   ")) None tt
             (or_intror (ex_intro _ (lit "   ") (conj eq_refl eq_refl)))).
  reflexivity.
Defined.

(** X8.  A message that is not blank and has more than 1000 code units is
    answered with status 400 and "Message too long"; the world is left as
    it was. *)
Theorem postChatbot_refuses_long_message :
  forall (W Resp Hist E : Type) (H : ErrorLike E) (key : option jsstring)
         (sendMessage : jsstring -> Hist -> Operation W Resp E)
         (responseText : Resp -> jsstring + E)
         (toLowerCase : jsstring -> jsstring) (emptyHistory : Hist)
         (isoNow : W -> jsstring)
         (msg : jsstring) (history : option Hist) (w : W),
    trim msg <> [] ->
    1000 < List.length msg ->
    postChatbot key sendMessage responseText toLowerCase emptyHistory isoNow
      (Some {| body_message := MsgString msg; body_history := history |}) w
    = ({| status := 400;
          json := {| success := false;
                     error := Some (lit "Message too long");
                     reply := lit "Please keep your question under 1000 characters.";
                     engine := None;
                     timestamp := None |} |}, w).
Proof.
  intros W Resp Hist E H key sendMessage responseText toLowerCase emptyHistory
         isoNow msg history w Htrim Hlen.
  unfold postChatbot; cbn [body_message].
  assert (Hne : msg <> []) by (intros ->; apply Htrim; reflexivity).
  apply jsstring_eqb_nil_false in Hne, Htrim; rewrite Hne, Htrim; cbn [orb].
  apply Nat.ltb_lt in Hlen; rewrite Hlen; reflexivity.
Qed.

(** X8 at 1001 letters. *)
Lemma postChatbot_refuses_long_message_witness :
  status (fst (postChatbot (Some (lit "AIzaSy-test-key")) Fixture.chatOk
                 Scenario.textOf Scenario.asciiToLowerCase [] Scenario.epoch
                 (Some {| body_message := MsgString (repeat 97%N 1001);
                          body_history := None |}) tt)) = 400.
Proof.
  assert (Htrim : trim (repeat 97%N 1001) <> []) by (vm_compute; discriminate).
  assert (Hlen : 1000 < List.length (repeat 97%N 1001))
    by (rewrite repeat_length; lia).
  rewrite (@postChatbot_refuses_long_message unit jsstring (list Turn) JsError _
             (Some (lit "AIzaSy-test-key")) Fixture.chatOk Scenario.textOf
             Scenario.asciiToLowerCase [] Scenario.epoch
             (repeat 97%N 1001) None tt Htrim Hlen).
  reflexivity.
Defined.

(** X9.  Whatever the request, the route answers with status 200, 400 or
    500; [success] is true exactly on 200; a 200 answer has an engine,
    "gemini" or "rule-based", a timestamp and no [error]; any other answer
    has an [error], no engine, and leaves the world as it was. *)
Theorem postChatbot_answer_shape :
  forall (W Resp Hist E : Type) (H : ErrorLike E) (key : option jsstring)
         (sendMessage : jsstring -> Hist -> Operation W Resp E)
         (responseText : Resp -> jsstring + E)
         (toLowerCase : jsstring -> jsstring) (emptyHistory : Hist)
         (isoNow : W -> jsstring) (body : option (@Body Hist)) (w : W),
    (status (fst (postChatbot key sendMessage responseText toLowerCase
                    emptyHistory isoNow body w)) = 200 /\
     success (json (fst (postChatbot key sendMessage responseText toLowerCase
                           emptyHistory isoNow body w))) = true /\
     error (json (fst (postChatbot key sendMessage responseText toLowerCase
                         emptyHistory isoNow body w))) = None /\
     (engine (json (fst (postChatbot key sendMessage responseText toLowerCase
                           emptyHistory isoNow body w))) = Some (lit "gemini") \/
      engine (json (fst (postChatbot key sendMessage responseText toLowerCase
                           emptyHistory isoNow body w))) = Some (lit "rule-based")) /\
     timestamp (json (fst (postChatbot key sendMessage responseText toLowerCase
                             emptyHistory isoNow body w))) <> None)
    \/
    ((status (fst (postChatbot key sendMessage responseText toLowerCase
                     emptyHistory isoNow body w)) = 400 \/
      status (fst (postChatbot key sendMessage responseText toLowerCase
                     emptyHistory isoNow body w)) = 500) /\
     success (json (fst (postChatbot key sendMessage responseText toLowerCase
                           emptyHistory isoNow body w))) = false /\
     error (json (fst (postChatbot key sendMessage responseText toLowerCase
                         emptyHistory isoNow body w))) <> None /\
     engine (json (fst (postChatbot key sendMessage responseText toLowerCase
                          emptyHistory isoNow body w))) = None /\
     snd (postChatbot key sendMessage responseText toLowerCase
            emptyHistory isoNow body w) = w).
Proof.
  intros W Resp Hist E H key sendMessage responseText toLowerCase emptyHistory
         isoNow body w.
  unfold postChatbot.
  destruct body as [[field history]|]; cbn [body_message body_history].
  2: { right; cbn; repeat split; auto; discriminate. }
  destruct field as [|msg|].
  1, 3: right; cbn; repeat split; auto; discriminate.
  destruct (jsstring_eqb msg [] || jsstring_eqb (trim msg) []).
  { right; cbn; repeat split; auto; discriminate. }
  destruct (1000 <? List.length msg).
  { right; cbn; repeat split; auto; discriminate. }
  left.
  destruct (negb (keyMissing key)).
  - destruct (getChatbotResponse key sendMessage responseText msg
                (match history with Some h => h | None => emptyHistory end) w)
      as [[text | err | m] w']; cbn; repeat split; auto; discriminate.
  - cbn; repeat split; auto; discriminate.
Qed.

(** X10.  For a message that passes the checks, when [getChatbotResponse]
    returns a text the route answers 200 with that text as the reply and
    the engine "gemini". *)
Theorem postChatbot_relays_gemini_reply :
  forall (W Resp Hist E : Type) (H : ErrorLike E) (key : option jsstring)
         (sendMessage : jsstring -> Hist -> Operation W Resp E)
         (responseText : Resp -> jsstring + E)
         (toLowerCase : jsstring -> jsstring) (emptyHistory : Hist)
         (isoNow : W -> jsstring)
         (msg : jsstring) (history : option Hist) (w w' : W) (answer : jsstring),
    trim msg <> [] ->
    List.length msg <= 1000 ->
    getChatbotResponse key sendMessage responseText msg
      (match history with Some h => h | None => emptyHistory end) w
    = (Returned answer, w') ->
    postChatbot key sendMessage responseText toLowerCase emptyHistory isoNow
      (Some {| body_message := MsgString msg; body_history := history |}) w
    = ({| status := 200;
          json := {| success := true;
                     error := None;
                     reply := answer;
                     engine := Some (lit "gemini");
                     timestamp := Some (isoNow w') |} |}, w').
Proof.
  intros W Resp Hist E H key sendMessage responseText toLowerCase emptyHistory
         isoNow msg history w w' answer Htrim Hlen Hresp.
  unfold postChatbot; cbn [body_message body_history].
  assert (Hne : msg <> []) by (intros ->; apply Htrim; reflexivity).
  apply jsstring_eqb_nil_false in Hne, Htrim; rewrite Hne, Htrim; cbn [orb].
  apply Nat.ltb_ge in Hlen; rewrite Hlen.
  assert (Hkey : keyMissing key = false).
  { destruct (keyMissing key) eqn:Hk; [|reflexivity].
    unfold getChatbotResponse in Hresp; rewrite Hk in Hresp; discriminate Hresp. }
  rewrite Hkey, Hresp; reflexivity.
Qed.

(** X10 with a chat model that answers. *)
Lemma postChatbot_relays_gemini_reply_witness :
  postChatbot (Some (lit "AIzaSy-test-key")) Fixture.chatOk Scenario.textOf
    Scenario.asciiToLowerCase [] Scenario.epoch
    (Some {| body_message := MsgString (lit "What is a nodule?");
             body_history := None |}) tt
  = ({| status := 200;
        json := {| success := true;
                   error := None;
                   reply := lit "Nodules are common.";
                   engine := Some (lit "gemini");
                   timestamp := Some (Scenario.epoch tt) |} |}, tt).
Proof.
  assert (Htrim : trim (lit "What is a nodule?") <> []) by (vm_compute; discriminate).
  assert (Hlen : List.length (lit "What is a nodule?") <= 1000) by (vm_compute; lia).
  exact (@postChatbot_relays_gemini_reply unit jsstring (list Turn) JsError _
           (Some (lit "AIzaSy-test-key")) Fixture.chatOk Scenario.textOf
           Scenario.asciiToLowerCase [] Scenario.epoch
           (lit "What is a nodule?") None tt tt (lit "Nodules are common.")
           Htrim Hlen eq_refl).
Defined.

(** X11.  The info endpoint and the chat route agree on the key: when
    [GET /chatbot/info] reports [apiConfigured: false], it names the
    rule-based engine, and the chat route answers every message that passes
    the checks from the knowledge base, with the world left as it was. *)
Theorem info_unconfigured_means_rule_based_chat :
  forall (W Resp Hist E : Type) (H : ErrorLike E) (key : option jsstring)
         (sendMessage : jsstring -> Hist -> Operation W Resp E)
         (responseText : Resp -> jsstring + E)
         (toLowerCase : jsstring -> jsstring) (emptyHistory : Hist)
         (isoNow : W -> jsstring)
         (msg : jsstring) (history : option Hist) (w : W),
    Info.apiConfigured (Info.getChatbotInfo key) = false ->
    trim msg <> [] ->
    List.length msg <= 1000 ->
    Info.engine (Info.getChatbotInfo key) = lit "Rule-based (fallback)" /\
    postChatbot key sendMessage responseText toLowerCase emptyHistory isoNow
      (Some {| body_message := MsgString msg; body_history := history |}) w
    = ({| status := 200;
          json := {| success := true;
                     error := None;
                     reply := getRuleBasedResponse toLowerCase msg;
                     engine := Some (lit "rule-based");
                     timestamp := Some (isoNow w) |} |}, w).
Proof.
  intros W Resp Hist E H key sendMessage responseText toLowerCase emptyHistory
         isoNow msg history w Hinfo Htrim Hlen.
  cbn [Info.getChatbotInfo Info.apiConfigured Info.engine] in *.
  rewrite Hinfo; split; [reflexivity|].
  rewrite hasApiKey_keyMissing in Hinfo.
  unfold postChatbot; cbn [body_message body_history].
  assert (Hne : msg <> []) by (intros ->; apply Htrim; reflexivity).
  apply jsstring_eqb_nil_false in Hne, Htrim; rewrite Hne, Htrim; cbn [orb].
  apply Nat.ltb_ge in Hlen; rewrite Hlen, Hinfo; reflexivity.
Qed.

(** X11 with the placeholder left in the environment. *)
Lemma info_unconfigured_means_rule_based_chat_witness :
  Info.apiConfigured (Info.getChatbotInfo (Some KEY_PLACEHOLDER)) = false /\
  engine (json (fst (postChatbot (Some KEY_PLACEHOLDER) Fixture.chatOk
                       Scenario.textOf Scenario.asciiToLowerCase []
                       Scenario.epoch
                       (Some {| body_message := MsgString (lit "What is a nodule?");
                                body_history := None |}) tt)))
  = Some (lit "rule-based").
Proof.
  assert (Htrim : trim (lit "What is a nodule?") <> []) by (vm_compute; discriminate).
  assert (Hlen : List.length (lit "What is a nodule?") <= 1000) by (vm_compute; lia).
  split; [reflexivity|].
  rewrite (proj2 (@info_unconfigured_means_rule_based_chat unit jsstring (list Turn)
                    JsError _ (Some KEY_PLACEHOLDER) Fixture.chatOk Scenario.textOf
                    Scenario.asciiToLowerCase [] Scenario.epoch
                    (lit "What is a nodule?") None tt eq_refl Htrim Hlen)).
  reflexivity.
Defined.

(** ** The rule-based replies *)

Lemma find_first {A : Type} (f : A -> bool) (l : list A) :
  match find f l with
  | Some x =>
      exists before after,
        l = before ++ x :: after /\ f x = true /\
        forall y, In y before -> f y = false
  | None => forall y, In y l -> f y = false
  end.
Proof.
  induction l as [|a l IH]; cbn [find].
  - intros y [].
  - destruct (f a) eqn:Hfa.
    + exists [], l; repeat split; [exact Hfa | intros y []].
    + destruct (find f l) as [x|].
      * destruct IH as (before & after & Hl & Hfx & Hbefore).
        exists (a :: before), after; repeat split.
        -- rewrite Hl; reflexivity.
        -- exact Hfx.
        -- intros y [<- | Hy]; [exact Hfa | exact (Hbefore y Hy)].
      * intros y [<- | Hy]; [exact Hfa | exact (IH y Hy)].
Qed.

Lemma knowledgeBase_responses_nonempty :
  forall e, In e knowledgeBase -> response e <> [].
Proof.
  assert (Hall : forallb (fun e => negb (jsstring_eqb (response e) [])) knowledgeBase
                 = true) by (vm_compute; reflexivity).
  intros e He; rewrite forallb_forall in Hall; specialize (Hall e He).
  apply negb_true_iff, jsstring_eqb_nil_false in Hall; exact Hall.
Qed.

(** X12.  The rule-based reply is never empty, and it is chosen by the
    first entry of the knowledge base one of whose keywords occurs in the
    lower-cased, trimmed message: either no entry has such a keyword and the
    reply is the default one, or the reply is the response of an entry that
    has one while no entry before it has. *)
Theorem rule_based_reply_is_first_match :
  forall (toLowerCase : jsstring -> jsstring) (msg : jsstring),
    getRuleBasedResponse toLowerCase msg <> [] /\
    ((getRuleBasedResponse toLowerCase msg = defaultFallbackResponse /\
      forall e k, In e knowledgeBase -> In k (keywords e) ->
                  includes (trim (toLowerCase msg)) (toLowerCase k) = false)
     \/
     (exists before e after k,
         knowledgeBase = before ++ e :: after /\
         In k (keywords e) /\
         includes (trim (toLowerCase msg)) (toLowerCase k) = true /\
         (forall e' k', In e' before -> In k' (keywords e') ->
                        includes (trim (toLowerCase msg)) (toLowerCase k') = false) /\
         getRuleBasedResponse toLowerCase msg = response e)).
Proof.
  intros toLowerCase msg.
  unfold getRuleBasedResponse.
  pose proof (find_first
                (fun entry => existsb (fun k => includes (trim (toLowerCase msg))
                                                         (toLowerCase k))
                                      (keywords entry))
                knowledgeBase) as Hfind.
  cbv beta in Hfind.
  destruct (find _ knowledgeBase) as [e|].
  - destruct Hfind as (before & after & Hkb & Hmatch & Hbefore).
    apply existsb_exists in Hmatch; destruct Hmatch as (k & Hk & Hinc).
    split.
    + apply knowledgeBase_responses_nonempty.
      rewrite Hkb; apply in_elt.
    + right; exists before, e, after, k; repeat split; try assumption.
      intros e' k' He' Hk'.
      specialize (Hbefore e' He').
      destruct (includes (trim (toLowerCase msg)) (toLowerCase k')) eqn:Hinc';
        [|reflexivity].
      rewrite <- Hbefore; symmetry; apply existsb_exists; exists k'; split; assumption.
  - split.
    + intros Hnil; apply (f_equal (@List.length N)) in Hnil.
      vm_compute in Hnil; discriminate Hnil.
    + left; split; [reflexivity|].
      intros e k He Hk.
      specialize (Hfind e He).
      destruct (includes (trim (toLowerCase msg)) (toLowerCase k)) eqn:Hinc;
        [|reflexivity].
      rewrite <- Hfind; symmetry; apply existsb_exists; exists k; split; assumption.
Qed.

(** ** Trimming *)

Lemma trimStart_head (s : jsstring) :
  trimStart s = [] \/
  exists c s', trimStart s = c :: s' /\ isWhiteSpace c = false.
Proof.
  induction s as [|c s IH]; cbn [trimStart].
  - left; reflexivity.
  - destruct (isWhiteSpace c) eqn:Hc; [exact IH|].
    right; exists c, s; split; [reflexivity | exact Hc].
Qed.

Lemma trimStart_keeps (c : N) (s : jsstring) :
  isWhiteSpace c = false -> trimStart (c :: s) = c :: s.
Proof. intros Hc; cbn [trimStart]; rewrite Hc; reflexivity. Qed.

Lemma trimStart_idem (s : jsstring) : trimStart (trimStart s) = trimStart s.
Proof.
  destruct (trimStart_head s) as [-> | (c & s' & -> & Hc)];
    [reflexivity | apply (@trimStart_keeps c s' Hc)].
Qed.

Lemma trimStart_snoc (l : jsstring) (c : N) :
  isWhiteSpace c = false -> trimStart (l ++ [c]) = trimStart l ++ [c].
Proof.
  intros Hc; induction l as [|a l IH]; cbn [app trimStart].
  - rewrite Hc; reflexivity.
  - destruct (isWhiteSpace a); [exact IH | reflexivity].
Qed.

Lemma trimEnd_keeps_head (c : N) (s : jsstring) :
  isWhiteSpace c = false -> exists t, trimEnd (c :: s) = c :: t.
Proof.
  intros Hc; unfold trimEnd; cbn [rev].
  rewrite (@trimStart_snoc (rev s) c Hc), rev_app_distr; cbn [rev app].
  eexists; reflexivity.
Qed.

Lemma trimEnd_idem (s : jsstring) : trimEnd (trimEnd s) = trimEnd s.
Proof. unfold trimEnd; rewrite rev_involutive, trimStart_idem; reflexivity. Qed.

Lemma trim_idem (s : jsstring) : trim (trim s) = trim s.
Proof.
  unfold trim.
  destruct (trimStart_head s) as [-> | (c & s' & -> & Hc)]; [reflexivity|].
  destruct (@trimEnd_keeps_head c s' Hc) as [t Ht].
  rewrite Ht, (@trimStart_keeps c t Hc), <- Ht; apply trimEnd_idem.
Qed.

(** ** The report utilities *)

(** X13.  With a fallback that is not empty and is its own trim, [str]
    never returns an empty or untrimmed string, whatever the value, and
    applying it again to its own result changes nothing. *)
Theorem str_is_trimmed_and_never_blank :
  forall (val : option jsstring) (fallback : jsstring),
    fallback <> [] ->
    trim fallback = fallback ->
    Vision.str val fallback <> [] /\
    trim (Vision.str val fallback) = Vision.str val fallback /\
    Vision.str (Some (Vision.str val fallback)) fallback = Vision.str val fallback.
Proof.
  intros val fallback Hne Htrim.
  assert (Hshape : Vision.str val fallback <> [] /\
                   trim (Vision.str val fallback) = Vision.str val fallback).
  { unfold Vision.str; destruct val as [s|]; [|split; assumption].
    destruct (jsstring_eqb (trim s) []) eqn:Hs; [split; assumption|].
    split; [apply jsstring_eqb_nil_false; exact Hs | apply trim_idem]. }
  destruct Hshape as [Hnonempty Htrimmed]; repeat split; try assumption.
  unfold Vision.str at 1; rewrite Htrimmed.
  apply jsstring_eqb_nil_false in Hnonempty; rewrite Hnonempty; reflexivity.
Qed.

(** X13 at a padded risk level. *)
Lemma str_is_trimmed_and_never_blank_witness :
  Vision.str (Some (lit "  low ")) (lit "moderate") = lit "low" /\
  Vision.str (Some (Vision.str (Some (lit "  low ")) (lit "moderate"))) (lit "moderate")
  = Vision.str (Some (lit "  low ")) (lit "moderate").
Proof.
  assert (Hne : lit "moderate" <> []) by (vm_compute; discriminate).
  assert (Htrim : trim (lit "moderate") = lit "moderate") by (vm_compute; reflexivity).
  split; [vm_compute; reflexivity|].
  exact (proj2 (proj2 (@str_is_trimmed_and_never_blank (Some (lit "  low "))
                         (lit "moderate") Hne Htrim))).
Defined.

(** X14.  Whatever text the model sent, the object [extractFallback] makes
    of it has one of four verdicts, each with its own risk level and a
    confidence between 60 and 98; its findings are the first 500 code units
    of the text at most; it carries the four default recommendations; and
    its verdict, risk level, description and image quality go through [str]
    unchanged, whatever the fallback. *)
Theorem extractFallback_report_shape :
  forall (toLowerCase : jsstring -> jsstring) (text fallback : jsstring),
    In (Vision.result (Vision.extractFallback toLowerCase text),
        Vision.riskLevel (Vision.extractFallback toLowerCase text),
        Vision.confidence (Vision.extractFallback toLowerCase text))
       [ (lit "Nodule Detected - Benign", lit "low", 78%N);
         (lit "Nodule Detected - Malignant", lit "high", 72%N);
         (lit "No Nodule Detected", lit "none", 88%N);
         (lit "Indeterminate - Further Evaluation Required", lit "moderate", 74%N) ] /\
    (60 <= Vision.confidence (Vision.extractFallback toLowerCase text) <= 98)%N /\
    List.length (Vision.findings (Vision.extractFallback toLowerCase text)) <= 500 /\
    (exists rest,
        text = Vision.findings (Vision.extractFallback toLowerCase text) ++ rest) /\
    Vision.recommendations (Vision.extractFallback toLowerCase text)
    = Vision.defaultRecommendations /\
    Vision.str (Some (Vision.result (Vision.extractFallback toLowerCase text))) fallback
    = Vision.result (Vision.extractFallback toLowerCase text) /\
    Vision.str (Some (Vision.riskLevel (Vision.extractFallback toLowerCase text))) fallback
    = Vision.riskLevel (Vision.extractFallback toLowerCase text) /\
    Vision.str (Some (Vision.description (Vision.extractFallback toLowerCase text))) fallback
    = Vision.description (Vision.extractFallback toLowerCase text) /\
    Vision.str (Some (Vision.imageQuality (Vision.extractFallback toLowerCase text))) fallback
    = Vision.imageQuality (Vision.extractFallback toLowerCase text).
Proof.
  intros toLowerCase text fallback.
  unfold Vision.extractFallback.
  destruct (includes (toLowerCase text) (lit "benign"));
    [| destruct (includes (toLowerCase text) (lit "malignant")
                 || includes (toLowerCase text) (lit "cancer"));
       [| destruct (includes (toLowerCase text) (lit "no nodule")
                    || includes (toLowerCase text) (lit "normal")) ] ];
    cbn [Vision.result Vision.riskLevel Vision.confidence Vision.findings
         Vision.recommendations Vision.description Vision.imageQuality];
    (split; [cbn [In]; tauto|]);
    (split; [split; apply N.leb_le; reflexivity|]);
    (split; [apply firstn_le_length|]);
    (split; [exists (skipn 500 text); symmetry; apply firstn_skipn|]);
    (split; [reflexivity|]);
    repeat split; vm_compute; reflexivity.
Qed.

(** ** The prediction route *)

Lemma failureFor_status (msg : jsstring) :
  In (fst (Predict.failureFor msg)) [503; 429; 401; 500].
Proof.
  unfold Predict.failureFor.
  repeat match goal with
         | |- context [if ?b then _ else _] => destruct b
         end; cbn [fst In]; tauto.
Qed.

Lemma Forall2_four {A B : Type} (P : A -> B -> Prop) (a b c d : A) (l : list B) :
  Forall2 P [a; b; c; d] l ->
  exists x y z t, l = [x; y; z; t] /\ P a x /\ P b y /\ P c z /\ P d t.
Proof.
  intros Hall.
  inversion Hall as [|? x ? l1 Ha H1]; subst.
  inversion H1 as [|? y ? l2 Hb H2]; subst.
  inversion H2 as [|? z ? l3 Hc H3]; subst.
  inversion H3 as [|? t ? l4 Hd H4]; subst.
  inversion H4; subst.
  exists x, y, z, t; repeat split; assumption.
Qed.

(** The aggregate error of the vision cascade, whatever reasons its four
    lines give, is reported as the rate limit of all models. *)
Lemma failureFor_exhausted_vision {E : Type} `{ErrorLike E} (details : list jsstring) :
  Forall2 (fun m d => exists err : E, skippable err = true /\ d = skipDetail m err)
          VISION_MODELS details ->
  Predict.failureFor (exhaustedMessage details)
  = (429, lit "Rate limit reached on all AI models. Please wait 60 seconds and try again. (Free tier: 15 requests/minute)").
Proof.
  intros Hall; apply Forall2_four in Hall.
  destruct Hall as (d1 & d2 & d3 & d4 & -> & (e1 & _ & ->) & (e2 & _ & ->)
                    & (e3 & _ & ->) & (e4 & _ & ->)).
  unfold skipDetail.
  destruct (includes (message e1) (lit "429")), (includes (message e2) (lit "429")),
    (includes (message e3) (lit "429")), (includes (message e4) (lit "429"));
    vm_compute; reflexivity.
Qed.

Section PredictFacts.
Context {W Image Resp Report E : Type} `{ErrorLike E}.
Variable key : option jsstring.
Variable readFileSync : jsstring -> W -> (Image + E) * W.
Variable generateContent : jsstring -> Image -> Operation W Resp E.
Variable buildReport : Resp -> jsstring -> W -> Report + E.
Variable existsSync : jsstring -> W -> bool.
Variable unlinkSync : jsstring -> W -> W.
Variable isoNow : W -> jsstring.

(** X15.  With the key unset or left at the placeholder, an uploaded scan
    is answered with status 503 and the set-up message, and the uploaded
    file is cleaned up; the file is not read and no model is called. *)
Theorem postPredict_missing_key_is_503 :
  forall (f : Predict.UploadedFile) (w : W),
    key = None \/ key = Some KEY_PLACEHOLDER ->
    Predict.postPredict key readFileSync generateContent buildReport
                        existsSync unlinkSync isoNow (Some f) w
    = (Predict.Failed 503 (lit "AI Analysis Failed")
         (lit "AI service not configured. Please add your GEMINI_API_KEY to backend/.env. Get a FREE key at https://aistudio.google.com/app/apikey"),
       Predict.cleanUp existsSync unlinkSync (Predict.path f) w).
Proof.
  intros f w Hkey.
  apply keyMissing_unset_or_placeholder in Hkey.
  unfold Predict.postPredict, analyzeCTScan; rewrite Hkey.
  unfold Predict.failed.
  assert (Hfail : Predict.failureFor VISION_KEY_ERROR
                  = (503, lit "AI service not configured. Please add your GEMINI_API_KEY to backend/.env. Get a FREE key at https://aistudio.google.com/app/apikey"))
    by (vm_compute; reflexivity).
  rewrite Hfail; reflexivity.
Qed.

(** X16.  With a key, a readable file and every vision model skipped, the
    scan is answered with status 429 and the message about all models, and
    the uploaded file is cleaned up. *)
Theorem postPredict_exhausted_is_429 :
  forall (f : Predict.UploadedFile) (image : Image) (w w1 w2 : W),
    keyMissing key = false ->
    readFileSync (Predict.path f) w = (inl image, w1) ->
    attempts (generateContent (Predict.path f) image)
             (fun err => skippable err = true) VISION_MODELS w1 w2 ->
    Predict.postPredict key readFileSync generateContent buildReport
                        existsSync unlinkSync isoNow (Some f) w
    = (Predict.Failed 429 (lit "AI Analysis Failed")
         (lit "Rate limit reached on all AI models. Please wait 60 seconds and try again. (Free tier: 15 requests/minute)"),
       Predict.cleanUp existsSync unlinkSync (Predict.path f) w2).
Proof.
  intros f image w w1 w2 Hkey Hread Hat.
  destruct (@tryModels_exhausted_enumerates W Resp E _
              (generateContent (Predict.path f) image) VISION_MODELS w1 w2 Hat)
    as (details & Hall & Heq).
  unfold Predict.postPredict, analyzeCTScan; rewrite Hkey, Hread, Heq.
  unfold Predict.failed; rewrite (failureFor_exhausted_vision Hall); reflexivity.
Qed.

(** X17.  The route answers a request without a file with status 400 and
    leaves the world alone.  With a file: when [analyzeCTScan] returns a
    report, the answer is the success carrying that report and the image
    path "/uploads/" followed by the file name, and the file stays; when it
    throws, the answer is "AI Analysis Failed" with status 401, 429, 500 or
    503, and the uploaded file is cleaned up. *)
Theorem postPredict_answer_shape :
  forall (file : option Predict.UploadedFile) (w : W),
    match file with
    | None =>
        Predict.statusOf
          (fst (Predict.postPredict key readFileSync generateContent buildReport
                  existsSync unlinkSync isoNow None w)) = 400 /\
        snd (Predict.postPredict key readFileSync generateContent buildReport
               existsSync unlinkSync isoNow None w) = w
    | Some f =>
        match analyzeCTScan key readFileSync generateContent buildReport
                            (Predict.path f) w with
        | (Returned prediction, w1) =>
            Predict.postPredict key readFileSync generateContent buildReport
                                existsSync unlinkSync isoNow (Some f) w
            = (Predict.Analysed prediction (lit "/uploads/" ++ Predict.filename f)
                 (Predict.filename f) (isoNow w1) (lit "Google Gemini Vision"), w1)
        | (_, w1) =>
            exists status detail,
              In status [503; 429; 401; 500] /\
              Predict.postPredict key readFileSync generateContent buildReport
                                  existsSync unlinkSync isoNow (Some f) w
              = (Predict.Failed status (lit "AI Analysis Failed") detail,
                 Predict.cleanUp existsSync unlinkSync (Predict.path f) w1)
        end
    end.
Proof.
  intros [f|] w; [|split; reflexivity].
  unfold Predict.postPredict.
  destruct (analyzeCTScan key readFileSync generateContent buildReport
              (Predict.path f) w) as [[prediction | err | msg] w1].
  - reflexivity.
  - exists (fst (Predict.failureFor (message err))),
           (snd (Predict.failureFor (message err))).
    split; [apply failureFor_status | reflexivity].
  - exists (fst (Predict.failureFor msg)), (snd (Predict.failureFor msg)).
    split; [apply failureFor_status | reflexivity].
Qed.
End PredictFacts.

(** X15 with no key in the environment. *)
Lemma postPredict_missing_key_is_503_witness :
  Predict.statusOf
    (fst (Predict.postPredict None Fixture.readsFile Fixture.visionOk
            Scenario.rawReport Fixture.fileExists Fixture.removes Scenario.epoch
            (Some Fixture.scanFile) tt)) = 503.
Proof.
  rewrite (@postPredict_missing_key_is_503 unit jsstring jsstring jsstring JsError _
             None Fixture.readsFile Fixture.visionOk Scenario.rawReport
             Fixture.fileExists Fixture.removes Scenario.epoch
             Fixture.scanFile tt (or_introl eq_refl)).
  reflexivity.
Defined.

(** X16 with every vision model out of quota. *)
Lemma postPredict_exhausted_is_429_witness :
  Predict.statusOf
    (fst (Predict.postPredict (Some (lit "AIzaSy-test-key")) Fixture.readsFile
            Scenario.visionOutOfQuota Scenario.rawReport Fixture.fileExists
            Fixture.removes Scenario.epoch (Some Fixture.scanFile) tt)) = 429.
Proof.
  assert (Hat : attempts (Scenario.visionOutOfQuota (Predict.path Fixture.scanFile)
                                                    (lit "PNG"))
                         (fun err => skippable err = true) VISION_MODELS tt tt).
  { repeat (exists (Error (lit "429 Too Many Requests")), tt; repeat split). }
  rewrite (@postPredict_exhausted_is_429 unit jsstring jsstring jsstring JsError _
             (Some (lit "AIzaSy-test-key")) Fixture.readsFile
             Scenario.visionOutOfQuota Scenario.rawReport Fixture.fileExists
             Fixture.removes Scenario.epoch Fixture.scanFile (lit "PNG") tt tt tt
             eq_refl eq_refl Hat).
  reflexivity.
Defined.

(** ** The browser side against the server *)

(** X18.  The browser's [validateFile] lets a file through exactly when the
    server's [fileFilter] accepts its type and its size is within the
    server's [fileSize] limit. *)
Theorem validateFile_agrees_with_upload_limits :
  forall (fileType : jsstring) (fileSize : N),
    Frontend.validateFile fileType fileSize = None <->
    Predict.fileFilter fileType = None /\ (fileSize <= Predict.FILE_SIZE_LIMIT)%N.
Proof.
  intros fileType fileSize.
  unfold Frontend.validateFile, Predict.fileFilter.
  change Frontend.ALLOWED_TYPES with Predict.allowed.
  change (Frontend.MAX_SIZE_MB * 1024 * 1024)%N with Predict.FILE_SIZE_LIMIT.
  destruct (existsb (jsstring_eqb fileType) Predict.allowed); cbn [negb].
  - destruct (N.ltb_spec Predict.FILE_SIZE_LIMIT fileSize) as [Hlt | Hle].
    + split; [discriminate | intros [_ Hle]; lia].
    + split; [intros _; split; [reflexivity | exact Hle] | reflexivity].
  - split; [discriminate | intros [Hno _]; discriminate Hno].
Qed.

Lemma filter_all {A : Type} (f : A -> bool) (l : list A) :
  Forall (fun x => f x = true) l -> List.filter f l = l.
Proof.
  induction 1 as [|x l Hx _ IH]; cbn [List.filter]; [reflexivity|].
  rewrite Hx, IH; reflexivity.
Qed.

(** X19.  The history the browser posts has at most ten turns, each with
    the role "user" or "model", and the server's filter drops none of them:
    the chat is started with every posted turn, in order. *)
Theorem posted_history_is_bounded_and_kept :
  forall history : list Frontend.ChatMessage,
    List.length (Frontend.geminiHistory history) <= 10 /\
    Forall (fun m => role m = lit "user" \/ role m = lit "model")
           (Frontend.geminiHistory history) /\
    startChatHistory (Frontend.geminiHistory history)
    = List.map (fun m => {| content_role := role m; parts := [text m] |})
               (Frontend.geminiHistory history) /\
    List.length (startChatHistory (Frontend.geminiHistory history))
    = List.length (Frontend.geminiHistory history).
Proof.
  intros history.
  assert (Hroles : Forall (fun m => role m = lit "user" \/ role m = lit "model")
                          (Frontend.geminiHistory history)).
  { unfold Frontend.geminiHistory; apply Forall_map, Forall_forall; intros m _.
    cbn [role]; destruct (jsstring_eqb (Frontend.type m) (lit "user")); auto. }
  assert (Hkept : startChatHistory (Frontend.geminiHistory history)
                  = List.map (fun m => {| content_role := role m; parts := [text m] |})
                             (Frontend.geminiHistory history)).
  { unfold startChatHistory; rewrite filter_all; [reflexivity|].
    eapply Forall_impl; [|exact Hroles].
    intros m [-> | ->]; reflexivity. }
  repeat split.
  - unfold Frontend.geminiHistory; rewrite length_map, length_skipn; lia.
  - exact Hroles.
  - exact Hkept.
  - rewrite Hkept, length_map; reflexivity.
Qed.

(** X20.  What the chat window sends is never refused as blank: when
    [handleSendMessage] posts a request, and the trimmed input has at most
    1000 code units, the route answers with status 200. *)
Theorem chat_window_request_is_answered :
  forall (W Resp E : Type) (H : ErrorLike E) (key : option jsstring)
         (sendMessage : jsstring -> list Turn -> Operation W Resp E)
         (responseText : Resp -> jsstring + E)
         (toLowerCase : jsstring -> jsstring) (isoNow : W -> jsstring)
         (inputMessage : jsstring) (messages : list Frontend.ChatMessage)
         (body : @Body (list Turn)) (w : W),
    Frontend.chatRequest inputMessage messages = Some body ->
    List.length (trim inputMessage) <= 1000 ->
    status (fst (postChatbot key sendMessage responseText toLowerCase [] isoNow
                   (Some body) w)) = 200 /\
    body_message body = MsgString (trim inputMessage) /\
    body_history body = Some (Frontend.geminiHistory messages).
Proof.
  intros W Resp E H key sendMessage responseText toLowerCase isoNow
         inputMessage messages body w Hreq Hlen.
  unfold Frontend.chatRequest in Hreq.
  destruct (jsstring_eqb (trim inputMessage) []) eqn:Hblank; [discriminate|].
  injection Hreq as <-; cbn [body_message body_history].
  split; [|split; reflexivity].
  unfold postChatbot; cbn [body_message body_history].
  rewrite trim_idem, Hblank; cbn [orb].
  apply Nat.ltb_ge in Hlen; rewrite Hlen.
  destruct (negb (keyMissing key)); [|reflexivity].
  destruct (getChatbotResponse key sendMessage responseText (trim inputMessage)
              (Frontend.geminiHistory messages) w) as [[answer | err | m] w'];
    reflexivity.
Qed.

(** X20 at a padded question typed into a window of three messages. *)
Lemma chat_window_request_is_answered_witness :
  exists body,
    Frontend.chatRequest (lit "  What is a nodule? ") Fixture.window = Some body /\
    status (fst (postChatbot (Some (lit "AIzaSy-test-key")) Fixture.chatQuotaTurns
                   Scenario.textOf Scenario.asciiToLowerCase [] Scenario.epoch
                   (Some body) tt)) = 200.
Proof.
  assert (Hlen : List.length (trim (lit "  What is a nodule? ")) <= 1000)
    by (vm_compute; lia).
  eexists; split; [vm_compute; reflexivity|].
  refine (proj1 (@chat_window_request_is_answered unit jsstring JsError _
                   (Some (lit "AIzaSy-test-key")) Fixture.chatQuotaTurns
                   Scenario.textOf Scenario.asciiToLowerCase Scenario.epoch
                   (lit "  What is a nodule? ") Fixture.window _ tt _ Hlen)).
  vm_compute; reflexivity.
Defined.

(** The texts the prediction route can put in [message]. *)
Lemma failureFor_detail (msg : jsstring) :
  In (Predict.failureFor msg)
     [ (503, lit "AI service not configured. Please add your GEMINI_API_KEY to backend/.env. Get a FREE key at https://aistudio.google.com/app/apikey");
       (429, lit "Rate limit reached on all AI models. Please wait 60 seconds and try again. (Free tier: 15 requests/minute)");
       (429, lit "AI rate limit reached. Please wait 60 seconds and try again. (Free tier: 15 requests/minute)");
       (401, lit "Invalid Gemini API key. Please check GEMINI_API_KEY in backend/.env. Get a valid key at https://aistudio.google.com/app/apikey");
       (500, lit "Analysis failed. Please try again.") ].
Proof.
  unfold Predict.failureFor.
  repeat match goal with
         | |- context [if ?b then _ else _] => destruct b
         end; cbn [In]; tauto.
Qed.

Lemma Forall_ascii_forallb (s : jsstring) :
  forallb (fun c => (c <? 128)%N) s = true -> Forall (fun c => (c < 128)%N) s.
Proof.
  intros Hall; apply Forall_forall; intros c Hc.
  rewrite forallb_forall in Hall; apply N.ltb_lt, Hall, Hc.
Qed.

(** X21.  The card the browser shows for a failed upload, given that
    [toLowerCase] maps the letters A-Z of an ASCII string to a-z and keeps
    its other characters: the rate-limit card for status 429, the
    missing-key card for status 503 and also for status 401, the generic
    card for 400 and 500; no failure of the route gets the invalid-key
    card, and a success gets no card. *)
Theorem upload_failure_cards :
  forall (W Image Resp Report E : Type) (H : ErrorLike E)
         (toLowerCase : jsstring -> jsstring)
         (key : option jsstring)
         (readFileSync : jsstring -> W -> (Image + E) * W)
         (generateContent : jsstring -> Image -> Operation W Resp E)
         (buildReport : Resp -> jsstring -> W -> Report + E)
         (existsSync : jsstring -> W -> bool)
         (unlinkSync : jsstring -> W -> W)
         (isoNow : W -> jsstring)
         (file : option Predict.UploadedFile) (w : W),
    (forall s, Forall (fun c => (c < 128)%N) s ->
               toLowerCase s = List.map Spec.asciiLower s) ->
    match Frontend.errorCard toLowerCase
            (fst (Predict.postPredict key readFileSync generateContent buildReport
                    existsSync unlinkSync isoNow file w)) with
    | None =>
        Predict.statusOf
          (fst (Predict.postPredict key readFileSync generateContent buildReport
                  existsSync unlinkSync isoNow file w)) = 200
    | Some card =>
        In (Predict.statusOf
              (fst (Predict.postPredict key readFileSync generateContent buildReport
                      existsSync unlinkSync isoNow file w)), card)
           [ (429, Frontend.rateLimit); (503, Frontend.noApiKey);
             (401, Frontend.noApiKey); (500, Frontend.generic);
             (400, Frontend.generic) ]
    end.
Proof.
  intros W Image Resp Report E H toLowerCase key readFileSync generateContent
         buildReport existsSync unlinkSync isoNow file w Hlower.
  assert (Hcard : forall (status : nat) (detail : jsstring) (card : Frontend.ErrorKind),
             forallb (fun c => (c <? 128)%N) detail = true ->
             Frontend.classifyError Scenario.asciiToLowerCase (Some detail) = card ->
             jsstring_eqb detail [] = false ->
             Frontend.errorCard toLowerCase
               (@Predict.Failed Report status (lit "AI Analysis Failed") detail)
             = Some card /\
             Frontend.errorCard toLowerCase
               (@Predict.Failed Report status (lit "No image file uploaded") detail)
             = Some card).
  { intros status detail card Hascii Hclass Hne.
    apply Forall_ascii_forallb in Hascii.
    destruct detail as [|c detail]; [discriminate Hne|].
    unfold Frontend.errorCard, Frontend.handleAPIError, Frontend.orElse.
    unfold Frontend.classifyError in *.
    rewrite (Hlower _ Hascii); unfold Scenario.asciiToLowerCase in Hclass.
    rewrite Hclass; split; reflexivity. }
  destruct file as [f|].
  - unfold Predict.postPredict.
    destruct (analyzeCTScan key readFileSync generateContent buildReport
                (Predict.path f) w) as [[prediction | err | msg] w1]; cbn [fst].
    + reflexivity.
    + unfold Predict.failed.
      pose proof (failureFor_detail (message err)) as Hin.
      destruct (Predict.failureFor (message err)) as [status detail]; cbn [fst snd].
      cbn [In] in Hin.
      destruct Hin as [Heq | [Heq | [Heq | [Heq | [Heq | []]]]]];
        injection Heq as <- <-;
        match goal with
        | |- context [Frontend.errorCard _ (Predict.Failed ?st _ ?d)] =>
            erewrite (proj1 (Hcard st d _ ltac:(vm_compute; reflexivity) eq_refl
                               ltac:(vm_compute; reflexivity)))
        end; cbn [Predict.statusOf In]; vm_compute; tauto.
    + unfold Predict.failed.
      pose proof (failureFor_detail msg) as Hin.
      destruct (Predict.failureFor msg) as [status detail]; cbn [fst snd].
      cbn [In] in Hin.
      destruct Hin as [Heq | [Heq | [Heq | [Heq | [Heq | []]]]]];
        injection Heq as <- <-;
        match goal with
        | |- context [Frontend.errorCard _ (Predict.Failed ?st _ ?d)] =>
            erewrite (proj1 (Hcard st d _ ltac:(vm_compute; reflexivity) eq_refl
                               ltac:(vm_compute; reflexivity)))
        end; cbn [Predict.statusOf In]; vm_compute; tauto.
  - unfold Predict.postPredict; cbn [fst].
    erewrite (proj2 (Hcard 400 (lit "Please upload a CT scan image (PNG, JPG, or JPEG)")
                       _ ltac:(vm_compute; reflexivity) eq_refl
                       ltac:(vm_compute; reflexivity))).
    cbn [Predict.statusOf In]; vm_compute; tauto.
Qed.

(** X21 with the ASCII case conversion, on an upload made without a key. *)
Lemma upload_failure_cards_witness :
  match Frontend.errorCard Scenario.asciiToLowerCase
          (fst (Predict.postPredict None Fixture.readsFile Fixture.visionOk
                  Scenario.rawReport Fixture.fileExists Fixture.removes
                  Scenario.epoch (Some Fixture.scanFile) tt)) with
  | None =>
      Predict.statusOf
        (fst (Predict.postPredict None Fixture.readsFile Fixture.visionOk
                Scenario.rawReport Fixture.fileExists Fixture.removes
                Scenario.epoch (Some Fixture.scanFile) tt)) = 200
  | Some card =>
      In (Predict.statusOf
            (fst (Predict.postPredict None Fixture.readsFile Fixture.visionOk
                    Scenario.rawReport Fixture.fileExists Fixture.removes
                    Scenario.epoch (Some Fixture.scanFile) tt)), card)
         [ (429, Frontend.rateLimit); (503, Frontend.noApiKey);
           (401, Frontend.noApiKey); (500, Frontend.generic);
           (400, Frontend.generic) ]
  end.
Proof.
  exact (@upload_failure_cards unit jsstring jsstring jsstring JsError _
           Scenario.asciiToLowerCase None Fixture.readsFile Fixture.visionOk
           Scenario.rawReport Fixture.fileExists Fixture.removes Scenario.epoch
           (Some Fixture.scanFile) tt (fun s _ => eq_refl)).
Defined.

Example missing_key_upload_shows_key_card :
  Frontend.errorCard Scenario.asciiToLowerCase
    (fst (Predict.postPredict None Fixture.readsFile Fixture.visionOk
            Scenario.rawReport Fixture.fileExists Fixture.removes Scenario.epoch
            (Some Fixture.scanFile) tt))
  = Some Frontend.noApiKey.
Proof. vm_compute; reflexivity. Qed.

Example invalid_key_message_shows_missing_key_card :
  Frontend.classifyError Scenario.asciiToLowerCase
    (Some (snd (Predict.failureFor (lit "API_KEY_INVALID"))))
  = Frontend.noApiKey.
Proof. vm_compute; reflexivity. Qed.

(** X22.  Whatever the request, the chat window never shows the notice
    about the API key for an answer of the chat route: a refused or failed
    request gets the "I'm sorry" text, since the [error] fields of the
    route name neither "API" nor "key". *)
Theorem chat_window_never_shows_key_notice :
  forall (W Resp Hist E : Type) (H : ErrorLike E) (key : option jsstring)
         (sendMessage : jsstring -> Hist -> Operation W Resp E)
         (responseText : Resp -> jsstring + E)
         (toLowerCase : jsstring -> jsstring) (emptyHistory : Hist)
         (isoNow : W -> jsstring) (body : option (@Body Hist)) (w : W),
    match Frontend.chatFailure
            (fst (postChatbot key sendMessage responseText toLowerCase
                    emptyHistory isoNow body w)) with
    | None =>
        status (fst (postChatbot key sendMessage responseText toLowerCase
                       emptyHistory isoNow body w)) = 200
    | Some e => Frontend.chatErrorText e = Frontend.SORRY
    end.
Proof.
  intros W Resp Hist E H key sendMessage responseText toLowerCase emptyHistory
         isoNow body w.
  unfold postChatbot.
  destruct body as [[field history]|]; cbn [body_message body_history];
    [|vm_compute; reflexivity].
  destruct field as [|msg|]; try (vm_compute; reflexivity).
  destruct (jsstring_eqb msg [] || jsstring_eqb (trim msg) []);
    [vm_compute; reflexivity|].
  destruct (1000 <? List.length msg); [vm_compute; reflexivity|].
  destruct (negb (keyMissing key)); [|reflexivity].
  destruct (getChatbotResponse key sendMessage responseText msg
              (match history with Some h => h | None => emptyHistory end) w)
    as [[answer | err | m] w']; reflexivity.
Qed.

Lemma occursIn_wrapped (needle s pre suf : jsstring) :
  occursIn needle s -> occursIn needle (pre ++ s ++ suf).
Proof.
  intros (a & b & ->); exists (pre ++ a), (b ++ suf).
  rewrite <- !app_assoc; reflexivity.
Qed.

(** X23.  A quota or not-found error stays one when its message is wrapped
    in more text: if the message of one error stands inside the message of
    another, the second is a quota error, a not-found error, or skippable,
    whenever the first is. *)
Theorem skippable_survives_wrapping :
  forall (E1 E2 : Type) (H1 : ErrorLike E1) (H2 : ErrorLike E2)
         (inner : E1) (outer : E2) (pre suf : jsstring),
    message outer = pre ++ message inner ++ suf ->
    (isQuotaError inner = true -> isQuotaError outer = true) /\
    (isNotFoundError inner = true -> isNotFoundError outer = true) /\
    (skippable inner = true -> skippable outer = true).
Proof.
  intros E1 E2 H1 H2 inner outer pre suf Hwrap.
  assert (Hq : isQuotaError inner = true -> isQuotaError outer = true).
  { rewrite !isQuotaError_marker; unfold quotaMarker; rewrite Hwrap.
    intros [Hm | [Hm | [Hm | Hm]]];
      [left | right; left | right; right; left | right; right; right];
      apply occursIn_wrapped; exact Hm. }
  assert (Hn : isNotFoundError inner = true -> isNotFoundError outer = true).
  { rewrite !isNotFoundError_marker; unfold notFoundMarker; rewrite Hwrap.
    intros [Hm | Hm]; [left | right]; apply occursIn_wrapped; exact Hm. }
  repeat split; try assumption.
  unfold skippable; rewrite !orb_true_iff; intros [Hs | Hs]; auto.
Qed.

(** X23 at the message the SDK makes of a 429 response. *)
Lemma skippable_survives_wrapping_witness :
  skippable (Error (lit "[GoogleGenerativeAI Error]: [429 Too Many Requests] slow down"))
  = true.
Proof.
  refine (proj2 (proj2 (@skippable_survives_wrapping JsError JsError _ _
                          (Error (lit "429 Too Many Requests"))
                          (Error (lit "[GoogleGenerativeAI Error]: [429 Too Many Requests] slow down"))
                          (lit "[GoogleGenerativeAI Error]: [") (lit "] slow down")
                          _)) _); vm_compute; reflexivity.
Defined.
